(** * cytominer_eval.utils.operation_utils

    A shallow embedding of [assign_replicates] and [compare_distributions]
    (src/cytominer_eval/utils/operation_utils.py) together with the pandas,
    numpy and scikit-learn operations the two functions call, and the
    properties of the two functions proved over that embedding. *)

From Stdlib Require Import ZArith Reals Lra.

From stdpp Require Import base decidable option list strings sorting.

Local Open Scope string_scope.

Local Open Scope list_scope.

(** ** Values, labels, exceptions *)

(** A cell of a table: metadata values are strings or integers, derived
    columns hold booleans, [VNaN] is the missing value. *)
Inductive value : Type :=
  | VStr (s : string)
  | VInt (z : Z)
  | VBool (b : bool)
  | VNaN.

(** A row label of a pandas index. *)
Inductive label : Type :=
  | LInt (z : Z)
  | LStr (s : string).

#[global] Instance value_eq_dec : EqDecision value.
Proof. solve_decision. Defined.

#[global] Instance label_eq_dec : EqDecision label.
Proof. solve_decision. Defined.

(** The exceptions of the embedding.  [UnsupportedMethodError] is the error
    of the method-name validators.  [Unmodelled] is not a Python exception:
    it marks the cases of a pandas operation that the embedding leaves out;
    [raised_exceptions] shows that [assign_replicates] never reaches them. *)
Inductive exn : Type :=
  | AssertionError (msg : string)
  | KeyError
  | IndexError
  | ValueError
  | NameError
  | UnboundLocalError
  | UnsupportedMethodError
  | Unmodelled.

(** The outcome of a computation that may raise. *)
Inductive result (A : Type) : Type :=
  | Ok (a : A)
  | Err (e : exn).

Arguments Ok {A} a.

Arguments Err {A} e.

(** Sequencing: the first exception ends the computation. *)
Definition rbind {A B : Type} (r : result A) (k : A -> result B) : result B :=
  match r with
  | Ok a => k a
  | Err e => Err e
  end.

(** [f] on every element, from left to right, up to the first exception. *)
Fixpoint rmapM {A B : Type} (f : A -> result B) (l : list A)
  : result (list B) :=
  match l with
  | [] => Ok []
  | x :: l' =>
      rbind (f x) (fun y => rbind (rmapM f l') (fun ys => Ok (y :: ys)))
  end.

(** Elementwise [==] of two cells: exact equality, a missing value is equal
    to nothing (not even to itself), a boolean compares as the integer 0 or
    1. *)
Definition value_eqb (x y : value) : bool :=
  match x, y with
  | VStr a, VStr b => bool_decide (a = b)
  | VInt a, VInt b => bool_decide (a = b)
  | VBool a, VBool b => bool_decide (a = b)
  | VInt a, VBool b => bool_decide (a = Z.b2z b)
  | VBool a, VInt b => bool_decide (Z.b2z a = b)
  | _, _ => false
  end.

(** ** Data frames *)

Abbreviation Series := (list value).

(** A pandas DataFrame: the row index and the columns in order.  Column
    names may repeat, as pandas allows. *)
Record DataFrame : Type := mkDataFrame {
  df_index : list label;
  df_columns : list (string * Series)
}.

Definition nrows (df : DataFrame) : nat := length (df_index df).

Definition column_names (df : DataFrame) : list string := (df_columns df).*1.

(** Every column has one cell per row. *)
Definition well_formed (df : DataFrame) : Prop :=
  Forall (fun c : string * Series => length c.2 = nrows df) (df_columns df).

(** [pandas.RangeIndex(n)]: the default index 0 .. n-1. *)
Definition RangeIndex (n : nat) : list label :=
  map (fun i : nat => LInt (Z.of_nat i)) (seq 0 n).

(** [x in df.columns] *)
Definition has_column (x : string) (df : DataFrame) : bool :=
  bool_decide (x ∈ column_names df).

(** The columns called [name], in order. *)
Definition select (name : string) (cols : list (string * Series))
  : list (string * Series) :=
  filter (fun c : string * Series => c.1 = name) cols.

(** The first column called [name]. *)
Definition get_column (name : string) (cols : list (string * Series))
  : option Series :=
  snd <$> head (select name cols).

(** The cell of column [name] at row position [i]. *)
Definition cell (df : DataFrame) (name : string) (i : nat) : option value :=
  s ← get_column name (df_columns df); s !! i.

(** [df.loc[:, names]]: a new frame with, for each requested name in order,
    all the columns of that name. *)
Definition loc_columns (names : list string) (df : DataFrame)
  : result DataFrame :=
  if forallb (fun x => has_column x df) names
  then Ok (mkDataFrame (df_index df)
             (flat_map (fun n => select n (df_columns df)) names))
  else Err KeyError.

(** [df.loc[:, name] = v] for a scalar [v]: every column called [name] is
    overwritten; a new column is appended when there is none, which pandas
    refuses with ValueError (cannot set a frame with no defined index and a
    scalar) on a frame without rows. *)
Definition loc_set_column (name : string) (v : value) (df : DataFrame)
  : result DataFrame :=
  if has_column name df
  then Ok (mkDataFrame (df_index df)
             (map (fun c : string * Series =>
                     if bool_decide (c.1 = name)
                     then (c.1, replicate (nrows df) v) else c)
                  (df_columns df)))
  else if bool_decide (nrows df = 0)
  then Err ValueError
  else Ok (mkDataFrame (df_index df)
             (df_columns df ++ [(name, replicate (nrows df) v)])).

(** [df.iloc[:, k]] *)
Definition iloc_column (k : nat) (df : DataFrame) : result Series :=
  match df_columns df !! k with
  | Some c => Ok c.2
  | None => Err IndexError
  end.

(** [s1 == s2] for two series of one frame. *)
Definition series_eq (s1 s2 : Series) : list bool := zip_with value_eqb s1 s2.

(** [np.where(mask)[0]]: the positions at which the mask holds. *)
Fixpoint where_from (i : nat) (mask : list bool) : list nat :=
  match mask with
  | [] => []
  | b :: mask' =>
      if b then i :: where_from (S i) mask' else where_from (S i) mask'
  end.

Definition np_where (mask : list bool) : list nat := where_from 0 mask.

(** A numpy array of positions used as a list of row labels. *)
Definition as_labels (positions : list nat) : list label :=
  map (fun p : nat => LInt (Z.of_nat p)) positions.

(** The series with [v] at the rows whose label is one of [labels]. *)
Definition set_at_labels (idx labels : list label) (v : value) (s : Series)
  : Series :=
  zip_with (fun (l : label) (x : value) =>
              if bool_decide (l ∈ labels) then v else x) idx s.

(** [df.loc[labels, name] = v] for a list of row labels: label based.
    A label that is not in the index raises KeyError; otherwise every row
    carrying one of the labels is set. *)
Definition loc_set_rows (labels : list label) (name : string) (v : value)
    (df : DataFrame) : result DataFrame :=
  if forallb (fun l => bool_decide (l ∈ df_index df)) labels
  then
    if has_column name df
    then Ok (mkDataFrame (df_index df)
               (map (fun c : string * Series =>
                       if bool_decide (c.1 = name)
                       then (c.1, set_at_labels (df_index df) labels v c.2)
                       else c)
                    (df_columns df)))
    else Ok (mkDataFrame (df_index df)
               (df_columns df ++
                [(name, set_at_labels (df_index df) labels v
                          (replicate (nrows df) VNaN))]))
  else Err KeyError.

(** [pd.concat(frames, axis="columns")].  An empty list of frames raises
    ValueError.  The frames are aligned on their indexes; only the case the
    caller produces, where all frames carry the same index, is modelled:
    the columns are put side by side. *)
Definition concat_columns (frames : list DataFrame) : result DataFrame :=
  match frames with
  | [] => Err ValueError
  | d :: _ =>
      if forallb (fun d' => bool_decide (df_index d' = df_index d)) frames
      then Ok (mkDataFrame (df_index d) (flat_map df_columns frames))
      else Err Unmodelled
  end.

(** [df.reset_index(drop=True)] *)
Definition reset_index_drop (df : DataFrame) : DataFrame :=
  mkDataFrame (RangeIndex (nrows df)) (df_columns df).

Definition bool_cell (v : value) : option bool :=
  match v with
  | VBool b => Some b
  | _ => None
  end.

(** The smaller of two booleans, False < True. *)
Definition min_bool (a b : bool) : bool :=
  if (Z.b2z a <=? Z.b2z b)%Z then a else b.

(** The minimum of one row of boolean cells (NaN for a row without cells).
    Rows with another kind of cell are not modelled. *)
Definition row_min (cells : list value) : result value :=
  match mapM bool_cell cells with
  | Some (b :: bs) => Ok (VBool (fold_left min_bool bs b))
  | Some [] => Ok VNaN
  | None => Err Unmodelled
  end.

(** The cells of row [i], one per column. *)
Definition row_cells (cols : list (string * Series)) (i : nat) : list value :=
  map (fun c : string * Series => default VNaN (c.2 !! i)) cols.

(** [df.min(axis="columns")] *)
Definition min_axis_columns (df : DataFrame) : result Series :=
  rmapM (fun i => row_min (row_cells (df_columns df) i)) (seq 0 (nrows df)).

(** [df.assign(name=s)]: a new frame in which the columns called [name]
    hold [s]; the column is appended when there is none. *)
Definition assign (name : string) (s : Series) (df : DataFrame) : DataFrame :=
  if has_column name df
  then mkDataFrame (df_index df)
         (map (fun c : string * Series =>
                 if bool_decide (c.1 = name) then (c.1, s) else c)
              (df_columns df))
  else mkDataFrame (df_index df) (df_columns df ++ [(name, s)]).

(** The pairs (left position, right position) of rows with equal labels, in
    the order of the left rows. *)
Definition join_pairs (li ri : list label) : list (nat * nat) :=
  flat_map (fun p : nat * label =>
              map (fun q : nat * label => (p.1, q.1))
                  (filter (fun q : nat * label => q.2 = p.2) (imap pair ri)))
           (imap pair li).

(** The cells, or labels, at the given positions. *)
Definition take_rows (ps : list nat) (s : Series) : Series :=
  map (fun p => default VNaN (s !! p)) ps.

Definition take_labels (ps : list nat) (idx : list label) : list label :=
  map (fun p => default (LInt 0) (idx !! p)) ps.

(** The name of a column in the merged frame. *)
Definition merge_name (l r : DataFrame) (suffix n : string) : string :=
  if bool_decide (n ∈ column_names l ∧ n ∈ column_names r)
  then n +:+ suffix else n.

(** [left.merge(right, left_index=True, right_index=True)]: the inner join
    of the two frames on their row labels, in the order of the left rows; a
    column name present on both sides gets the suffix _x on the left and _y
    on the right. *)
Definition merge_on_index (l r : DataFrame) : DataFrame :=
  let ps := join_pairs (df_index l) (df_index r) in
  mkDataFrame (take_labels ps.*1 (df_index l))
    (map (fun c : string * Series =>
            (merge_name l r "_x" c.1, take_rows ps.*1 c.2)) (df_columns l) ++
     map (fun c : string * Series =>
            (merge_name l r "_y" c.1, take_rows ps.*2 c.2)) (df_columns r)).

(** ** Python dictionaries with string keys

    A dict keeps its keys in the order of their first insertion; setting an
    existing key replaces its value in place. *)

Abbreviation dict := (list (string * string)).

Fixpoint dict_set (k v : string) (d : dict) : dict :=
  match d with
  | [] => [(k, v)]
  | kv :: d' =>
      if bool_decide (kv.1 = k) then (k, v) :: d' else kv :: dict_set k v d'
  end.

(** [{x: f(x) for x in keys}] *)
Definition dict_comprehension (f : string -> string) (keys : list string)
  : dict :=
  fold_left (fun d x => dict_set x (f x) d) keys [].

(** [d[k]] *)
Definition dict_get (k : string) (d : dict) : result string :=
  match filter (fun kv : string * string => kv.1 = k) d with
  | kv :: _ => Ok kv.2
  | [] => Err KeyError
  end.

(** [d.values()] *)
Definition dict_values (d : dict) : list string := d.*2.

(** ** The object store

    Data frames are mutable objects.  A variable holds a reference into a
    store of frames; a pandas operation that returns a new frame allocates,
    an assignment through [.loc] updates the object in place.  A raised
    exception leaves the store as it is at that point. *)

Definition ref : Type := nat.

Abbreviation heap := (list DataFrame).

Definition M (A : Type) : Type := heap -> result A * heap.

Definition ret {A : Type} (a : A) : M A := fun h => (Ok a, h).

Definition bind {A B : Type} (m : M A) (k : A -> M B) : M B :=
  fun h =>
    match m h with
    | (Ok a, h') => k a h'
    | (Err e, h') => (Err e, h')
    end.

Definition lift {A : Type} (r : result A) : M A := fun h => (r, h).

Declare Scope py_scope.

Delimit Scope py_scope with py.

Notation "x <- c1 ;; c2" := (bind c1 (fun x => c2))
  (at level 100, c1 at next level, right associativity) : py_scope.

Notation "c1 ;;; c2" := (bind c1 (fun _ => c2))
  (at level 100, right associativity) : py_scope.

Local Open Scope py_scope.

(** A fresh object holding [df]. *)
Definition new_frame (df : DataFrame) : M ref :=
  fun h => (Ok (length h), h ++ [df]).

(** The object behind a reference.  Python code holds no reference to a
    missing object; the case is reported as NameError. *)
Definition read (r : ref) : M DataFrame :=
  fun h =>
    match h !! r with
    | Some df => (Ok df, h)
    | None => (Err NameError, h)
    end.

Definition write (r : ref) (df : DataFrame) : M unit :=
  fun h => (Ok tt, <[r := df]> h).

(** In-place update of the object behind [r]. *)
Definition modify (r : ref) (f : DataFrame -> result DataFrame) : M unit :=
  df <- read r ;;
  df' <- lift (f df) ;;
  write r df'.

(** [assert cond, msg] *)
Definition py_assert (cond : bool) (msg : string) : M unit :=
  if cond then ret tt else lift (Err (AssertionError msg)).

(** A [for] loop that appends one result per element to a list. *)
Fixpoint for_each {A B : Type} (body : A -> M B) (l : list A) : M (list B) :=
  match l with
  | [] => ret []
  | x :: l' =>
      y <- body x ;;
      ys <- for_each body l' ;;
      ret (y :: ys)
  end.

(** ** assign_replicates *)

Definition replicate_name (x : string) : string := x +:+ "_replicate".

Section PairIds.

(** The suffixes of the two sides of a pair. *)
Variables suffix_a suffix_b : string.

(** Modelled from the spec: [set_pair_ids] of
    cytominer_eval.utils.transform_utils is not part of the sources at
    hand.  It takes no argument and returns a mapping from the
    identifiers of the two pair sides, in a fixed order, to a descriptor
    with the suffix of that side; only the suffix is kept here. *)
Definition set_pair_ids : list (string * string) :=
  [("first", suffix_a); ("second", suffix_b)].

(** One iteration of the loop over [replicate_groups]. *)
Definition compare_field (similarity_melted_df : ref)
    (replicate_col_names : dict) (replicate_col : string) : M ref :=
  let pair_ids := set_pair_ids in
  let replicate_cols_with_suffix :=
    map (fun x : string * string => replicate_col +:+ x.2) pair_ids in
  df <- read similarity_melted_df ;;
  py_assert
    (forallb (fun x => has_column x df) replicate_cols_with_suffix)
    "replicate_group not found in melted dataframe columns" ;;;
  replicate_col_name <- lift (dict_get replicate_col replicate_col_names) ;;
  selected <- lift (loc_columns replicate_cols_with_suffix df) ;;
  compare_df <- new_frame selected ;;
  modify compare_df (loc_set_column replicate_col_name (VBool false)) ;;;
  d <- read compare_df ;;
  s0 <- lift (iloc_column 0 d) ;;
  s1 <- lift (iloc_column 1 d) ;;
  modify compare_df
    (loc_set_rows (as_labels (np_where (series_eq s0 s1)))
       replicate_col_name (VBool true)) ;;;
  ret compare_df.

Definition assign_replicates (similarity_melted_df : ref)
    (replicate_groups : list string) : M ref :=
  let replicate_col_names :=
    dict_comprehension replicate_name replicate_groups in
  compare_dfs <-
    for_each (compare_field similarity_melted_df replicate_col_names)
      replicate_groups ;;
  frames <- for_each read compare_dfs ;;
  concatenated <- lift (concat_columns frames) ;;
  compare_df <- new_frame (reset_index_drop concatenated) ;;
  d <- read compare_df ;;
  flags <- lift (loc_columns (dict_values replicate_col_names) d) ;;
  group_replicate <- lift (min_axis_columns flags) ;;
  kept <- lift (loc_columns
                  (dict_values replicate_col_names ++ ["group_replicate"])
                  (assign "group_replicate" group_replicate d)) ;;
  compare_df <- new_frame kept ;;
  l <- read similarity_melted_df ;;
  r <- read compare_df ;;
  new_frame (merge_on_index l r).

(** *** The same computation on frames

    [compare_frame] and [derived_frame] are the loop body and the frame of
    derived columns as functions of the input frame; [assign_replicates_run]
    below shows that the program computes exactly them. *)

Definition not_found_msg : string :=
  "replicate_group not found in melted dataframe columns".

Definition compare_frame (df : DataFrame) (replicate_col_names : dict)
    (replicate_col : string) : result DataFrame :=
  let cols :=
    map (fun x : string * string => replicate_col +:+ x.2) set_pair_ids in
  if forallb (fun x => has_column x df) cols
  then
    rbind (dict_get replicate_col replicate_col_names) (fun name =>
    rbind (loc_columns cols df) (fun sel =>
    rbind (loc_set_column name (VBool false) sel) (fun d =>
    rbind (iloc_column 0 d) (fun s0 =>
    rbind (iloc_column 1 d) (fun s1 =>
    loc_set_rows (as_labels (np_where (series_eq s0 s1))) name
      (VBool true) d)))))
  else Err (AssertionError not_found_msg).

Definition derived_frame (df : DataFrame) (replicate_groups : list string)
  : result DataFrame :=
  let names := dict_comprehension replicate_name replicate_groups in
  rbind (rmapM (compare_frame df names) replicate_groups) (fun frames =>
  rbind (concat_columns frames) (fun c =>
  let d := reset_index_drop c in
  rbind (loc_columns (dict_values names) d) (fun flags =>
  rbind (min_axis_columns flags) (fun g =>
  loc_columns (dict_values names ++ ["group_replicate"])
    (assign "group_replicate" g d))))).

Definition assign_replicates_frame (df : DataFrame)
    (replicate_groups : list string) : result DataFrame :=
  rbind (derived_frame df replicate_groups)
    (fun k => Ok (merge_on_index df k)).

(** *** What the loop computes, field by field

    The flags of each field and the columns derived from them, as functions
    of the input frame; they state what [compare_frame] and [derived_frame]
    compute. *)

(** The columns of the two sides of field [f], as [.loc] selects them. *)
Definition side_columns (df : DataFrame) (f : string)
  : list (string * list value) :=
  flat_map (fun n => select n (df_columns df))
    [f +:+ suffix_a; f +:+ suffix_b].

(** The comparison of the first two selected columns. *)
Definition eq_mask (df : DataFrame) (f : string) : list bool :=
  match side_columns df f with
  | c0 :: c1 :: _ => series_eq c0.2 c1.2
  | _ => []
  end.

(** The positions of equal sides, read as row labels. *)
Definition flag_rows (df : DataFrame) (f : string) : list label :=
  as_labels (np_where (eq_mask df f)).

(** The replicate column of field [f]: a row is flagged when its label is
    one of [flag_rows]. *)
Definition flags_of (df : DataFrame) (f : string) : list bool :=
  map (fun l => bool_decide (l ∈ flag_rows df f)) (df_index df).

(** The three ways an iteration fails: a side column is missing, the
    table has no rows, a position of equal sides is not a row label. *)
Definition field_check (df : DataFrame) (f : string) : result unit :=
  if has_column (f +:+ suffix_a) df && has_column (f +:+ suffix_b) df
  then
    if bool_decide (nrows df = 0)
    then Err ValueError
    else if forallb (fun l => bool_decide (l ∈ df_index df)) (flag_rows df f)
    then Ok tt
    else Err KeyError
  else Err (AssertionError not_found_msg).

(** The frame an iteration leaves behind: the selected columns and the
    replicate column. *)
Definition field_frame (df : DataFrame) (f : string) : DataFrame :=
  mkDataFrame (df_index df)
    (side_columns df f ++ [(replicate_name f, VBool <$> flags_of df f)]).

(** The replicate columns, one per listed field. *)
Definition flag_columns (df : DataFrame) (groups : list string)
  : list (string * list value) :=
  map (fun g => (replicate_name g, VBool <$> flags_of df g)) groups.

(** Row by row, whether every listed field is flagged. *)
Definition group_flags (df : DataFrame) (groups : list string) : list bool :=
  map (fun i =>
         forallb (fun g => bool_decide (flags_of df g !! i = Some true))
           groups)
      (seq 0 (nrows df)).

(** The columns of the derived frame: the group column is assigned over the
    flag columns, then the replicate names and the group name are picked. *)
Definition derived_columns (df : DataFrame) (groups : list string)
  : list (string * list value) :=
  flat_map
    (fun n =>
       select n
         (df_columns
            (assign "group_replicate" (VBool <$> group_flags df groups)
               (mkDataFrame (RangeIndex (nrows df))
                  (flag_columns df groups)))))
    (dict_values (dict_comprehension replicate_name groups)
     ++ ["group_replicate"]).

End PairIds.

(** ** Notions used to state the properties *)

(** What a call returns or raises, seen from the caller: the frame behind
    the returned reference in the final store, or the exception. *)
Definition returns (suffix_a suffix_b : string) (h : heap) (r : ref)
    (groups : list string) (out : DataFrame) : Prop :=
  exists r' h',
    assign_replicates suffix_a suffix_b r groups h = (Ok r', h') /\
    h' !! r' = Some out.

Definition raises (suffix_a suffix_b : string) (h : heap) (r : ref)
    (groups : list string) (e : exn) : Prop :=
  exists h', assign_replicates suffix_a suffix_b r groups h = (Err e, h').

(** The last character of a string. *)
Fixpoint last_char (s : string) : option Ascii.ascii :=
  match s with
  | EmptyString => None
  | String a s' =>
      match s' with
      | EmptyString => Some a
      | String _ _ => last_char s'
      end
  end.

(** No suffixed column name is the name of a replicate column. *)
Definition suffixes_ok (suffix_a suffix_b : string) : Prop :=
  forall f g : string,
    f +:+ suffix_a <> replicate_name g /\ f +:+ suffix_b <> replicate_name g.

(** The two sides never give one column name. *)
Definition sides_distinct (suffix_a suffix_b : string) : Prop :=
  forall f g : string, f +:+ suffix_a <> g +:+ suffix_b.

(** The distinct elements of a list, in the order of their first occurrence. *)
Definition first_occurrences (keys : list string) : list string :=
  fold_left (fun acc k => if bool_decide (k ∈ acc) then acc else acc ++ [k])
    keys [].

(** The derived column names are new to the table. *)
Definition fresh_names (df : DataFrame) (groups : list string) : Prop :=
  ("group_replicate" ∉ column_names df) /\
  (forall g, g ∈ groups -> replicate_name g ∉ column_names df).

(** The grouping fields whose two suffixed columns are in the table. *)
Definition columns_present (suffix_a suffix_b : string) (df : DataFrame)
    (groups : list string) : Prop :=
  forall g, g ∈ groups ->
    g +:+ suffix_a ∈ column_names df /\ g +:+ suffix_b ∈ column_names df.

(** On metadata values, strings and integers, [==] is equality. *)
Definition metadata_value (v : value) : Prop :=
  match v with
  | VStr _ | VInt _ => True
  | _ => False
  end.

(** The table in which the columns of the two sides of field [f] have
    exchanged their values in every row. *)
Definition swap_sides (suffix_a suffix_b f : string) (df : DataFrame)
  : DataFrame :=
  mkDataFrame (df_index df)
    (map (fun c : string * list value =>
            if decide (c.1 = f +:+ suffix_a)
            then (c.1, default c.2
                         (get_column (f +:+ suffix_b) (df_columns df)))
            else if decide (c.1 = f +:+ suffix_b)
            then (c.1, default c.2
                         (get_column (f +:+ suffix_a) (df_columns df)))
            else c)
         (df_columns df)).

(** Whether the two sides of field [g] are equal in row [i] of the table. *)
Definition sides_equal (suffix_a suffix_b : string) (df : DataFrame)
    (g : string) (i : nat) : bool :=
  match cell df (g +:+ suffix_a) i, cell df (g +:+ suffix_b) i with
  | Some x, Some y => value_eqb x y
  | _, _ => false
  end.

(** ** compare_distributions

    Samples are column vectors of shape (n_samples, 1), modelled as lists of
    real numbers: the arithmetic of numpy and scikit-learn is taken over the
    reals, without the rounding of binary floating point. *)

Section ComparatorModel.

Local Open Scope R_scope.

(** What the function returns: a single number, or (when no summary is
    applied) the array of scores. *)
Inductive scores : Type :=
  | Scalar (x : R)
  | Array (xs : list R).

(** [np.sum], [np.mean] *)
Definition np_sum (xs : list R) : R := fold_right Rplus 0 xs.

Definition np_mean (xs : list R) : R := np_sum xs / INR (length xs).

(** The population variance (no degrees-of-freedom correction), as
    StandardScaler computes it. *)
Definition np_var (xs : list R) : R :=
  np_mean (map (fun x => (x - np_mean xs) * (x - np_mean xs)) xs).

(** Sorting, by insertion. *)
Fixpoint insert_sorted (x : R) (l : list R) : list R :=
  match l with
  | [] => [x]
  | y :: l' => if Rle_dec x y then x :: l else y :: insert_sorted x l'
  end.

Definition np_sort (xs : list R) : list R := fold_right insert_sorted [] xs.

(** [np.median]: the middle value of the sorted sample, or the mean of the
    two middle values when their number is even. *)
Definition np_median (xs : list R) : R :=
  let s := np_sort xs in
  let n := length s in
  if Nat.even n
  then (nth (n / 2 - 1) s 0 + nth (n / 2) s 0) / 2
  else nth (n / 2) s 0.

(** A fitted [sklearn.preprocessing.StandardScaler]. *)
Record StandardScaler : Type := mkScaler { mean_ : R; scale_ : R }.

(** A scale of zero (constant feature) is replaced by one.  The tolerance
    by which scikit-learn recognises a constant feature is a bound on
    rounding errors; over exact arithmetic it is the test for zero. *)
Definition handle_zeros_in_scale (s : R) : R :=
  if Req_dec_T s 0 then 1 else s.

(** [scaler.fit(X)]: the mean and the standard deviation of the sample;
    an array without samples is refused. *)
Definition fit (X : list R) : result StandardScaler :=
  match X with
  | [] => Err ValueError
  | _ :: _ =>
      Ok (mkScaler (np_mean X) (handle_zeros_in_scale (sqrt (np_var X))))
  end.

(** [scaler.transform(X)]: [(x - mean_) / scale_] for every sample. *)
Definition transform (scaler : StandardScaler) (X : list R)
  : result (list R) :=
  match X with
  | [] => Err ValueError
  | _ :: _ => Ok (map (fun x => (x - mean_ scaler) / scale_ scaler) X)
  end.

(** The sets of supported names, defined outside the module. *)
Variables available_methods available_summary_methods : list string.

(** Modelled from the spec: [check_compare_distribution_method] and
    [check_replicate_summary_method] of
    cytominer_eval.utils.availability_utils are not part of the sources at
    hand.  Each takes a name, which must be one of a fixed, externally
    defined enumerated set of supported names; an unsupported name fails
    with UnsupportedMethodError. *)
Definition check_compare_distribution_method (method : string)
  : result unit :=
  if bool_decide (method ∈ available_methods)
  then Ok tt else Err UnsupportedMethodError.

Definition check_replicate_summary_method (replicate_summary_method : string)
  : result unit :=
  if bool_decide (replicate_summary_method ∈ available_summary_methods)
  then Ok tt else Err UnsupportedMethodError.

(** The local variable [scores] is unbound until the zscore branch assigns
    it; returning it unbound raises UnboundLocalError. *)
Definition compare_distributions (target_distrib control_distrib : list R)
    (method replicate_summary_method : string) : result scores :=
  rbind (check_compare_distribution_method method) (fun _ =>
  rbind (check_replicate_summary_method replicate_summary_method) (fun _ =>
  rbind
    (if bool_decide (method = "zscore")
     then
       rbind (fit control_distrib) (fun scaler =>
       rbind (transform scaler target_distrib) (fun scores =>
       if bool_decide (replicate_summary_method = "mean")
       then Ok (Some (Scalar (np_mean scores)))
       else if bool_decide (replicate_summary_method = "median")
       then Ok (Some (Scalar (np_median scores)))
       else Ok (Some (Array scores))))
     else Ok None)
    (fun scores =>
       match scores with
       | Some s => Ok s
       | None => Err UnboundLocalError
       end))).




(** The score the fitted scaler gives a value: the distance to the mean of
    the control sample, divided by the scale the scaler keeps. *)
Definition standardized (control : list R) (t : R) : R :=
  (t - np_mean control) / handle_zeros_in_scale (sqrt (np_var control)).

End ComparatorModel.

(** ** Example tables *)

(** Two pairs of profiles: field a matches in the first row only, field b
    in both rows. *)
Definition example_table : DataFrame :=
  mkDataFrame (RangeIndex 2)
    [("a_pair_a", [VStr "x"; VStr "y"]); ("a_pair_b", [VStr "x"; VStr "z"]);
     ("b_pair_a", [VInt 1; VInt 2]); ("b_pair_b", [VInt 1; VInt 2]);
     ("similarity_metric", [VInt 5; VInt 6])].

(** What [assign_replicates] returns for it with the fields a and b. *)
Definition example_result : DataFrame :=
  mkDataFrame (RangeIndex 2)
    [("a_pair_a", [VStr "x"; VStr "y"]); ("a_pair_b", [VStr "x"; VStr "z"]);
     ("b_pair_a", [VInt 1; VInt 2]); ("b_pair_b", [VInt 1; VInt 2]);
     ("similarity_metric", [VInt 5; VInt 6]);
     ("a_replicate", [VBool true; VBool false]);
     ("b_replicate", [VBool true; VBool true]);
     ("group_replicate", [VBool true; VBool false])].

(** A table whose rows carry the labels 10 and 11, as after filtering a
    larger table; the two sides of field a differ in both rows. *)
Definition relabelled_table : DataFrame :=
  mkDataFrame [LInt 10; LInt 11]
    [("a_pair_a", [VStr "x"; VStr "y"]); ("a_pair_b", [VStr "y"; VStr "x"]);
     ("similarity_metric", [VInt 5; VInt 6])].

(** A one-row table on another index than the default one: field a
    matches, field b has no columns. *)
Definition one_row_table : DataFrame :=
  mkDataFrame [LInt 5]
    [("a_pair_a", [VStr "x"]); ("a_pair_b", [VStr "x"]);
     ("similarity_metric", [VInt 7])].

(** Three rows whose labels are a rotation of 0, 1, 2; only the first row
    has equal sides. *)
Definition rotated_table : DataFrame :=
  mkDataFrame [LInt 1; LInt 2; LInt 0]
    [("a_pair_a", [VStr "x"; VStr "y"; VStr "z"]);
     ("a_pair_b", [VStr "x"; VStr "z"; VStr "w"])].

(** One row on the default index; a grouping field is called group. *)
Definition group_field_table : DataFrame :=
  mkDataFrame (RangeIndex 1)
    [("group_pair_a", [VStr "p"]); ("group_pair_b", [VStr "p"]);
     ("b_pair_a", [VInt 1]); ("b_pair_b", [VInt 2])].

(** The example table with other similarity values and a further column;
    the columns of the fields a and b are as before. *)
Definition rescored_table : DataFrame :=
  mkDataFrame (RangeIndex 2)
    [("similarity_metric", [VInt 9; VInt 8]);
     ("a_pair_a", [VStr "x"; VStr "y"]); ("a_pair_b", [VStr "x"; VStr "z"]);
     ("b_pair_a", [VInt 1; VInt 2]); ("b_pair_b", [VInt 1; VInt 2]);
     ("pair_a_index", [VInt 0; VInt 1])].

(** What [assign_replicates] returns for the example table with the field
    b alone. *)
Definition example_result_b : DataFrame :=
  mkDataFrame (RangeIndex 2)
    [("a_pair_a", [VStr "x"; VStr "y"]); ("a_pair_b", [VStr "x"; VStr "z"]);
     ("b_pair_a", [VInt 1; VInt 2]); ("b_pair_b", [VInt 1; VInt 2]);
     ("similarity_metric", [VInt 5; VInt 6]);
     ("b_replicate", [VBool true; VBool true]);
     ("group_replicate", [VBool true; VBool true])].

(** One pair of profiles whose field a is missing on both sides, while
    field b matches. *)
Definition missing_value_table : DataFrame :=
  mkDataFrame (RangeIndex 1)
    [("a_pair_a", [VNaN]); ("a_pair_b", [VNaN]);
     ("b_pair_a", [VInt 1]); ("b_pair_b", [VInt 1])].

(** A table without rows that has the columns of field a. *)
Definition empty_table : DataFrame :=
  mkDataFrame (RangeIndex 0)
    [("a_pair_a", []); ("a_pair_b", []); ("similarity_metric", [])].

(** * Properties *)

(** ** Facts about the store *)

Lemma lookup_snoc_new (h : list DataFrame) (d : DataFrame) :
  (h ++ [d]) !! length h = Some d.
Proof. by rewrite lookup_app_r, Nat.sub_diag by lia. Qed.

Lemma insert_snoc_new (h : list DataFrame) (d d' : DataFrame) :
  <[length h := d']> (h ++ [d]) = h ++ [d'].
Proof. by rewrite insert_app_r_alt, Nat.sub_diag by lia. Qed.

Lemma for_each_read (h ds : list DataFrame) (tl : list DataFrame) :
  for_each read (seq (length h) (length ds)) (h ++ ds ++ tl)
  = (Ok ds, h ++ ds ++ tl).
Proof.
  revert h. induction ds as [|d ds IH]; intros h; [done|].
  specialize (IH (h ++ [d])). rewrite length_app in IH. cbn [length] in IH.
  rewrite Nat.add_1_r in IH. rewrite <- !(assoc_L (++)) in IH.
  cbn [length seq for_each app] in *. unfold bind at 1. unfold read at 1.
  rewrite (lookup_app_r h) by lia. rewrite Nat.sub_diag.
  cbn [lookup list_lookup].
  unfold bind at 1. by rewrite IH.
Qed.

Section Run.

Variables suffix_a suffix_b : string.

Lemma compare_field_run (h : list DataFrame) (r : ref) (df : DataFrame)
    (names : dict) (f : string) :
  h !! r = Some df ->
  exists tmp,
    compare_field suffix_a suffix_b r names f h
    = (match compare_frame suffix_a suffix_b df names f with
       | Ok _ => Ok (length h)
       | Err e => Err e
       end, h ++ tmp) /\
    (forall d, compare_frame suffix_a suffix_b df names f = Ok d -> tmp = [d]).
Proof.
  intros Hr. unfold compare_field, compare_frame.
  unfold bind at 1. unfold read at 1. rewrite Hr.
  unfold bind at 1.
  destruct (forallb _ _); cbn [py_assert ret lift].
  2:{ exists []. by rewrite app_nil_r. }
  unfold bind at 1. unfold lift at 1.
  destruct (dict_get f names) as [name|e]; cbn [rbind].
  2:{ exists []. by rewrite app_nil_r. }
  unfold bind at 1. unfold lift at 1.
  destruct (loc_columns _ df) as [sel|e]; cbn [rbind].
  2:{ exists []. by rewrite app_nil_r. }
  unfold bind at 1. unfold new_frame at 1.
  unfold bind at 1. unfold modify at 1. unfold bind at 1. unfold read at 1.
  rewrite lookup_snoc_new. unfold bind at 1. unfold lift at 1.
  destruct (loc_set_column name _ sel) as [d0|e]; cbn [rbind].
  2:{ eexists. split; [reflexivity|]. intros; discriminate. }
  unfold write at 1. rewrite insert_snoc_new.
  unfold bind at 1. unfold read at 1. rewrite lookup_snoc_new.
  unfold bind at 1. unfold lift at 1.
  destruct (iloc_column 0 _) as [s0|e]; cbn [rbind].
  2:{ eexists. split; [reflexivity|]. intros; discriminate. }
  unfold bind at 1. unfold lift at 1.
  destruct (iloc_column 1 _) as [s1|e]; cbn [rbind].
  2:{ eexists. split; [reflexivity|]. intros; discriminate. }
  unfold bind at 1. unfold modify at 1. unfold bind at 1. unfold read at 1.
  rewrite lookup_snoc_new. unfold bind at 1. unfold lift at 1.
  destruct (loc_set_rows _ _ _ _) as [d|e].
  2:{ eexists. split; [reflexivity|]. intros; discriminate. }
  unfold write, ret. rewrite insert_snoc_new.
  eexists. split; [reflexivity|]. by intros ? [= ->].
Qed.

Lemma for_each_compare_field_run (h : list DataFrame) (r : ref)
    (df : DataFrame) (names : dict) (groups : list string) :
  h !! r = Some df ->
  exists tmp,
    for_each (compare_field suffix_a suffix_b r names) groups h
    = (match rmapM (compare_frame suffix_a suffix_b df names) groups with
       | Ok ds => Ok (seq (length h) (length ds))
       | Err e => Err e
       end, h ++ tmp) /\
    (forall ds,
        rmapM (compare_frame suffix_a suffix_b df names) groups = Ok ds ->
        tmp = ds).
Proof.
  revert h. induction groups as [|f groups IH]; intros h Hr.
  { exists []. cbn. unfold ret. rewrite app_nil_r. split; [done|].
    by intros ? [= <-]. }
  cbn [for_each rmapM]. unfold bind at 1.
  destruct (compare_field_run h r df names f Hr) as (tmp & -> & Htmp).
  destruct (compare_frame suffix_a suffix_b df names f) as [d|e]; cbn [rbind].
  2:{ exists tmp. split; [done|]. intros; discriminate. }
  rewrite (Htmp d eq_refl). unfold bind at 1.
  destruct (IH (h ++ [d])) as (tmp' & -> & Htmp').
  { by apply lookup_app_l_Some. }
  destruct (rmapM _ groups) as [ds|e]; cbn [rbind].
  2:{ exists ([d] ++ tmp'). rewrite (assoc_L (++)). split; [done|].
      intros; discriminate. }
  rewrite (Htmp' ds eq_refl). unfold ret.
  exists (d :: ds). rewrite length_app. cbn [length]. rewrite Nat.add_1_r.
  rewrite <- (assoc_L (++)). cbn [app seq]. split; [done|].
  by intros ? [= <-].
Qed.

(** The program computes [assign_replicates_frame] of the frame behind its
    argument, into a fresh object, and leaves every object that existed
    before the call as it was. *)
Lemma assign_replicates_run (h : list DataFrame) (r : ref) (df : DataFrame)
    (groups : list string) :
  h !! r = Some df ->
  exists tmp,
    assign_replicates suffix_a suffix_b r groups h
    = match assign_replicates_frame suffix_a suffix_b df groups with
      | Ok out => (Ok (length (h ++ tmp)), h ++ tmp ++ [out])
      | Err e => (Err e, h ++ tmp)
      end.
Proof.
  intros Hr. unfold assign_replicates, assign_replicates_frame, derived_frame.
  set (names := dict_comprehension replicate_name groups).
  unfold bind at 1.
  destruct (for_each_compare_field_run h r df names groups Hr)
    as (tmp & -> & Htmp).
  destruct (rmapM _ groups) as [ds|e]; cbn [rbind]; [|by exists tmp].
  rewrite (Htmp ds eq_refl). clear tmp Htmp.
  unfold bind at 1.
  pose proof (for_each_read h ds []) as Hrd. rewrite app_nil_r in Hrd.
  rewrite Hrd. clear Hrd.
  unfold bind at 1. unfold lift at 1.
  destruct (concat_columns ds) as [c|e]; cbn [rbind]; [|by exists ds].
  unfold bind at 1. unfold new_frame at 1.
  unfold bind at 1. unfold read at 1. rewrite lookup_snoc_new.
  unfold bind at 1. unfold lift at 1.
  destruct (loc_columns _ (reset_index_drop c)) as [flags|e]; cbn [rbind].
  2:{ exists (ds ++ [reset_index_drop c]). by rewrite (assoc_L (++)). }
  unfold bind at 1. unfold lift at 1.
  destruct (min_axis_columns flags) as [g|e]; cbn [rbind].
  2:{ exists (ds ++ [reset_index_drop c]). by rewrite (assoc_L (++)). }
  unfold bind at 1. unfold lift at 1.
  destruct (loc_columns _ (assign _ g _)) as [kept|e]; cbn [rbind].
  2:{ exists (ds ++ [reset_index_drop c]). by rewrite (assoc_L (++)). }
  unfold bind at 1. unfold new_frame at 1.
  unfold bind at 1. unfold read at 1.
  assert (Hr3 : (((h ++ ds) ++ [reset_index_drop c]) ++ [kept]) !! r
                = Some df) by (by do 3 apply lookup_app_l_Some).
  rewrite Hr3.
  unfold bind at 1. unfold read at 1. rewrite lookup_snoc_new.
  unfold new_frame.
  exists (ds ++ [reset_index_drop c] ++ [kept]).
  by rewrite !(assoc_L (++)).
Qed.

End Run.

(** ** Column names *)

Lemma string_length_append (x s : string) :
  String.length (x +:+ s) = String.length x + String.length s.
Proof. induction x as [|a x IH]; simpl; [done|]. by rewrite IH. Qed.

Lemma append_inj_l (s x y : string) : x +:+ s = y +:+ s -> x = y.
Proof.
  revert y. induction x as [|a x IH]; intros [|b y] H; simpl in H.
  - done.
  - apply (f_equal String.length) in H.
    rewrite !string_length_append in H. simpl in H. lia.
  - apply (f_equal String.length) in H.
    rewrite !string_length_append in H. simpl in H. lia.
  - injection H as -> H. f_equal. by apply IH.
Qed.

Lemma replicate_name_inj (x y : string) :
  replicate_name x = replicate_name y -> x = y.
Proof. apply append_inj_l. Qed.

Lemma last_char_append (x s : string) :
  s <> EmptyString -> last_char (x +:+ s) = last_char s.
Proof.
  intros Hs. induction x as [|a x IH]; simpl; [done|].
  destruct (x +:+ s) as [|b t] eqn:E; [|done].
  destruct x; simpl in E; [done|discriminate].
Qed.

Lemma names_differ (x y s t : string) :
  s <> EmptyString -> t <> EmptyString -> last_char s <> last_char t ->
  x +:+ s <> y +:+ t.
Proof.
  intros Hs Ht Hne E. apply (f_equal last_char) in E.
  by rewrite !last_char_append in E.
Qed.

Lemma pair_suffixes_ok : suffixes_ok "_pair_a" "_pair_b".
Proof. intros f g. split; by apply names_differ. Qed.

Lemma pair_sides_distinct : sides_distinct "_pair_a" "_pair_b".
Proof. intros f g. by apply names_differ. Qed.

(** ** Facts about the pandas and numpy operations *)

Lemma elem_of_where_from (i : nat) (mask : list bool) (p : nat) :
  p ∈ where_from i mask <-> exists k, p = i + k /\ mask !! k = Some true.
Proof.
  revert i. induction mask as [|b mask IH]; intros i; cbn.
  { split; [by intros ?%elem_of_nil|by intros (k & _ & ?)]. }
  assert (p ∈ where_from (S i) mask <->
          exists k, p = i + S k /\ mask !! k = Some true) as IH'.
  { rewrite IH. split; intros (k & -> & ?); exists k; split; auto; lia. }
  destruct b.
  - rewrite elem_of_cons, IH'. split.
    + intros [->|(k & -> & ?)]; [exists 0|exists (S k)]; split; auto; lia.
    + intros ([|k] & -> & Hk); [left; lia|right; by exists k].
  - rewrite IH'. split.
    + intros (k & -> & ?). by exists (S k).
    + intros ([|k] & -> & Hk); [done|by exists k].
Qed.

Lemma elem_of_np_where (mask : list bool) (p : nat) :
  p ∈ np_where mask <-> mask !! p = Some true.
Proof.
  unfold np_where. rewrite elem_of_where_from. split.
  - by intros (k & -> & ?).
  - intros ?. by exists p.
Qed.

Lemma elem_of_as_labels (ps : list nat) (p : nat) :
  LInt (Z.of_nat p) ∈ as_labels ps <-> p ∈ ps.
Proof.
  unfold as_labels. rewrite list_elem_of_fmap. split.
  - intros (q & [= Hq] & ?). by rewrite (Nat2Z.inj _ _ Hq).
  - intros ?. by exists p.
Qed.

Lemma elem_of_select (n : string) (cols : list (string * list value))
    (c : string * list value) :
  c ∈ select n cols <-> c ∈ cols /\ c.1 = n.
Proof. unfold select. rewrite list_elem_of_filter. tauto. Qed.

Lemma select_app (n : string) (a b : list (string * list value)) :
  select n (a ++ b) = select n a ++ select n b.
Proof. apply filter_app. Qed.

Lemma select_nil_iff (n : string) (cols : list (string * list value)) :
  select n cols = [] <-> n ∉ cols.*1.
Proof.
  split.
  - intros E (c & -> & Hc)%list_elem_of_fmap.
    assert (c ∈ select c.1 cols) as Hin by by apply elem_of_select.
    rewrite E in Hin. by apply elem_of_nil in Hin.
  - intros Hn. destruct (select n cols) as [|c l] eqn:E; [done|].
    assert (c ∈ select n cols) as [Hc Hc1]%elem_of_select
      by (rewrite E; left).
    destruct Hn. apply list_elem_of_fmap. by exists c.
Qed.

Lemma select_other (n : string) (cols : list (string * list value)) :
  n ∉ cols.*1 -> select n cols = [].
Proof. apply select_nil_iff. Qed.

Lemma get_column_app (n : string) (a b : list (string * list value)) :
  get_column n (a ++ b)
  = match get_column n a with
    | Some s => Some s
    | None => get_column n b
    end.
Proof.
  unfold get_column. rewrite select_app.
  by destruct (select n a).
Qed.

Lemma get_column_other (n : string) (cols : list (string * list value)) :
  n ∉ cols.*1 -> get_column n cols = None.
Proof. intros H. unfold get_column. by rewrite select_other. Qed.

Lemma has_column_true (n : string) (df : DataFrame) :
  has_column n df = true <-> n ∈ column_names df.
Proof. unfold has_column. apply bool_decide_eq_true. Qed.

Lemma has_column_false (n : string) (df : DataFrame) :
  has_column n df = false <-> n ∉ column_names df.
Proof. unfold has_column. apply bool_decide_eq_false. Qed.

Lemma length_RangeIndex (n : nat) : length (RangeIndex n) = n.
Proof. unfold RangeIndex. by rewrite length_map, length_seq. Qed.

Lemma set_at_labels_replicate (idx labels : list label) :
  set_at_labels idx labels (VBool true) (replicate (length idx) (VBool false))
  = VBool <$> map (fun l => bool_decide (l ∈ labels)) idx.
Proof.
  unfold set_at_labels. induction idx as [|l idx IH]; cbn; [done|].
  rewrite IH. by destruct (bool_decide (l ∈ labels)).
Qed.

Lemma dict_set_fresh_or_same (f : string -> string) (k : string)
    (acc : list string) :
  dict_set k (f k) (map (fun x => (x, f x)) acc)
  = map (fun x => (x, f x))
      (if bool_decide (k ∈ acc) then acc else acc ++ [k]).
Proof.
  induction acc as [|a acc IH]; [done|].
  cbn [map dict_set fst]. destruct (decide (a = k)) as [->|Ha].
  - rewrite !bool_decide_eq_true_2 by (done || left). done.
  - rewrite (bool_decide_eq_false_2 (a = k)) by done. rewrite IH.
    destruct (decide (k ∈ acc)) as [Hk|Hk].
    + rewrite (bool_decide_eq_true_2 (k ∈ acc)) by done.
      rewrite (bool_decide_eq_true_2 (k ∈ a :: acc)) by (by right). done.
    + rewrite (bool_decide_eq_false_2 (k ∈ acc)) by done.
      rewrite (bool_decide_eq_false_2 (k ∈ a :: acc)); [done|].
      intros [->|?]%elem_of_cons; done.
Qed.

Lemma dict_fold_spec (f : string -> string) (keys acc : list string) :
  fold_left (fun d x => dict_set x (f x) d) keys (map (fun x => (x, f x)) acc)
  = map (fun x => (x, f x))
      (fold_left (fun acc k => if bool_decide (k ∈ acc) then acc
                               else acc ++ [k]) keys acc).
Proof.
  revert acc. induction keys as [|k keys IH]; intros acc; [done|].
  cbn [fold_left]. by rewrite dict_set_fresh_or_same, IH.
Qed.

Lemma dict_comprehension_spec (f : string -> string) (keys : list string) :
  dict_comprehension f keys
  = map (fun x => (x, f x)) (first_occurrences keys).
Proof. apply (dict_fold_spec f keys []). Qed.

Lemma elem_of_first_occurrences (keys : list string) (k : string) :
  k ∈ first_occurrences keys <-> k ∈ keys.
Proof.
  unfold first_occurrences.
  enough (forall acc,
    k ∈ fold_left (fun acc k => if bool_decide (k ∈ acc) then acc
                                else acc ++ [k]) keys acc
    <-> k ∈ acc \/ k ∈ keys) as H.
  { rewrite H. split; [intros [?%elem_of_nil|?]; done|by right]. }
  induction keys as [|a keys IH]; intros acc; cbn [fold_left].
  { split; [by left|intros [?|?%elem_of_nil]; done]. }
  rewrite IH, elem_of_cons. case_bool_decide as Ha.
  - split; [intros [?|?]; auto|intros [?|[->|?]]; auto].
  - rewrite elem_of_app, list_elem_of_singleton. tauto.
Qed.

Lemma dict_values_comprehension (f : string -> string) (keys : list string) :
  dict_values (dict_comprehension f keys) = f <$> first_occurrences keys.
Proof.
  rewrite dict_comprehension_spec. unfold dict_values.
  rewrite <- list_fmap_compose. done.
Qed.

Lemma dict_get_comprehension (f : string -> string) (keys : list string)
    (k : string) :
  k ∈ keys -> dict_get k (dict_comprehension f keys) = Ok (f k).
Proof.
  intros Hk%elem_of_first_occurrences. rewrite dict_comprehension_spec.
  unfold dict_get. induction Hk as [k l|k a l Hk IH]; cbn [map].
  - rewrite filter_cons_True by done. done.
  - destruct (decide (a = k)) as [->|Hne].
    + rewrite filter_cons_True by done. done.
    + rewrite filter_cons_False by done. apply IH.
Qed.

Lemma elem_of_replicate_names (groups : list string) (n : string) :
  n ∈ dict_values (dict_comprehension replicate_name groups)
  <-> exists g, g ∈ groups /\ n = replicate_name g.
Proof.
  rewrite dict_values_comprehension, list_elem_of_fmap.
  split.
  - intros (g & -> & Hg). exists g. split; [|done].
    by apply elem_of_first_occurrences.
  - intros (g & Hg & ->). exists g. split; [done|].
    by apply elem_of_first_occurrences.
Qed.

(** ** What one loop iteration computes *)

Section Analysis.

Variables suffix_a suffix_b : string.

Hypothesis Hrep : suffixes_ok suffix_a suffix_b.

Lemma side_columns_names (df : DataFrame) (f : string)
    (c : string * list value) :
  c ∈ side_columns suffix_a suffix_b df f ->
  c ∈ df_columns df /\ (c.1 = f +:+ suffix_a \/ c.1 = f +:+ suffix_b).
Proof.
  unfold side_columns. cbn [flat_map]. rewrite app_nil_r, elem_of_app.
  rewrite !elem_of_select. tauto.
Qed.

Lemma side_columns_not_replicate (df : DataFrame) (f g : string) :
  replicate_name g ∉ (side_columns suffix_a suffix_b df f).*1.
Proof.
  intros (c & Hc & [_ [E|E]]%side_columns_names)%list_elem_of_fmap;
    rewrite E in Hc; symmetry in Hc; by apply (Hrep f g) in Hc.
Qed.

Lemma side_columns_two (df : DataFrame) (f : string) :
  has_column (f +:+ suffix_a) df = true ->
  has_column (f +:+ suffix_b) df = true ->
  exists c0 c1 rest, side_columns suffix_a suffix_b df f = c0 :: c1 :: rest.
Proof.
  intros Ha%has_column_true Hb%has_column_true.
  unfold side_columns. cbn [flat_map]. rewrite app_nil_r.
  destruct (select (f +:+ suffix_a) (df_columns df)) as [|c0 l0] eqn:E0.
  { by apply select_nil_iff in E0. }
  destruct (select (f +:+ suffix_b) (df_columns df)) as [|c1 l1] eqn:E1.
  { by apply select_nil_iff in E1. }
  destruct l0 as [|c0' l0]; cbn; eauto.
Qed.

Lemma map_keep_others (n : string)
    (g : string * list value -> string * list value)
    (cols : list (string * list value)) :
  n ∉ cols.*1 ->
  map (fun c : string * list value => if bool_decide (c.1 = n) then g c else c)
    cols = cols.
Proof.
  intros Hn. induction cols as [|c cols IH]; [done|]. cbn [map].
  rewrite fmap_cons, not_elem_of_cons in Hn. destruct Hn as [Hc Hn].
  rewrite bool_decide_eq_false_2 by done. by rewrite IH.
Qed.

Lemma compare_frame_spec (df : DataFrame) (names : dict) (f : string) :
  dict_get f names = Ok (replicate_name f) ->
  compare_frame suffix_a suffix_b df names f
  = rbind (field_check suffix_a suffix_b df f)
      (fun _ => Ok (field_frame suffix_a suffix_b df f)).
Proof.
  intros Hname. unfold compare_frame, field_check. cbn [set_pair_ids map snd].
  cbn [forallb]. rewrite andb_true_r.
  destruct (has_column (f +:+ suffix_a) df) eqn:Ha; [|done].
  destruct (has_column (f +:+ suffix_b) df) eqn:Hb; [|done].
  cbn [andb]. rewrite Hname. cbn [rbind].
  unfold loc_columns. cbn [forallb]. rewrite Ha, Hb. cbn [andb rbind].
  fold (side_columns suffix_a suffix_b df f).
  pose proof (side_columns_not_replicate df f f) as Hnot.
  assert (loc_set_column (replicate_name f) (VBool false)
            (mkDataFrame (df_index df) (side_columns suffix_a suffix_b df f))
          = if bool_decide (nrows df = 0)
            then Err ValueError
            else Ok (mkDataFrame (df_index df)
                       (side_columns suffix_a suffix_b df f ++
                        [(replicate_name f,
                          replicate (length (df_index df)) (VBool false))])))
    as ->.
  { unfold loc_set_column, has_column, column_names. cbn [df_columns].
    by rewrite bool_decide_eq_false_2 by done. }
  destruct (bool_decide (nrows df = 0)); [done|]. cbn [rbind].
  destruct (side_columns_two df f Ha Hb) as (c0 & c1 & rest & Hside).
  unfold iloc_column. cbn [df_columns].
  assert (forall tl, (side_columns suffix_a suffix_b df f ++ tl) !! 0
                     = Some c0) as ->
    by (by rewrite Hside).
  assert (forall tl, (side_columns suffix_a suffix_b df f ++ tl) !! 1
                     = Some c1) as ->
    by (by rewrite Hside).
  cbn [rbind]. unfold loc_set_rows. cbn [df_index df_columns].
  replace (as_labels (np_where (series_eq c0.2 c1.2)))
    with (flag_rows suffix_a suffix_b df f)
    by (unfold flag_rows, eq_mask; by rewrite Hside).
  destruct (forallb _ (flag_rows suffix_a suffix_b df f)); [|done].
  cbn [rbind]. unfold has_column, column_names. cbn [df_columns].
  rewrite bool_decide_eq_true_2.
  2:{ rewrite fmap_app. apply elem_of_app. right. left. }
  unfold field_frame. do 2 f_equal.
  rewrite map_app, map_keep_others by done. f_equal.
  cbn [map fst]. rewrite bool_decide_eq_true_2 by done.
  unfold nrows. cbn [df_index]. by rewrite set_at_labels_replicate.
Qed.

(** *** The frame of derived columns *)

Lemma rmapM_compare_frame (df : DataFrame) (names : dict)
    (groups : list string) :
  Forall (fun g => dict_get g names = Ok (replicate_name g)) groups ->
  rmapM (compare_frame suffix_a suffix_b df names) groups
  = rbind (rmapM (field_check suffix_a suffix_b df) groups)
      (fun _ => Ok (map (field_frame suffix_a suffix_b df) groups)).
Proof.
  induction 1 as [|g groups Hg _ IH]; [done|].
  cbn [rmapM map]. rewrite compare_frame_spec by done. rewrite IH.
  destruct (field_check suffix_a suffix_b df g); [|done]. cbn [rbind].
  by destruct (rmapM (field_check suffix_a suffix_b df) groups).
Qed.

Lemma rmapM_ok {A B : Type} (f : A -> result B) (g : A -> B) (l : list A) :
  Forall (fun x => f x = Ok (g x)) l -> rmapM f l = Ok (map g l).
Proof.
  induction 1 as [|x l Hx _ IH]; [done|].
  cbn [rmapM map]. by rewrite Hx, IH.
Qed.

Lemma min_bool_andb (a b : bool) : min_bool a b = a && b.
Proof. by destruct a, b. Qed.

Lemma fold_min_bool (bs : list bool) (b : bool) :
  fold_left min_bool bs b = forallb (fun x : bool => x) (b :: bs).
Proof.
  revert b. induction bs as [|c bs IH]; intros b; cbn [fold_left].
  { cbn. by rewrite andb_true_r. }
  rewrite IH, min_bool_andb. cbn. by rewrite andb_assoc.
Qed.

Lemma forallb_same_elements {A : Type} (p : A -> bool) (l1 l2 : list A) :
  (forall x, x ∈ l1 <-> x ∈ l2) -> forallb p l1 = forallb p l2.
Proof.
  intros H. apply eq_true_iff_eq. rewrite !forallb_forall.
  split; intros Hp x Hx%list_elem_of_In; apply Hp, list_elem_of_In;
    by apply H.
Qed.

Lemma select_select (n a : string) (cols : list (string * list value)) :
  select n (select a cols) = if decide (n = a) then select n cols else [].
Proof.
  unfold select. induction cols as [|c cols IH].
  { by destruct (decide (n = a)). }
  rewrite (filter_cons _ c). destruct (decide (c.1 = a)) as [E|E].
  - rewrite !(filter_cons _ c). rewrite IH.
    destruct (decide (c.1 = n)) as [E2|E2];
      destruct (decide (n = a)) as [E3|E3]; try done; congruence.
  - rewrite IH. destruct (decide (n = a)) as [->|E3]; [|done].
    rewrite (filter_cons _ c). by rewrite decide_False.
Qed.

Lemma get_column_flat_select (n : string) (cols : list (string * list value))
    (ns : list string) :
  get_column n (flat_map (fun x => select x cols) ns)
  = if decide (n ∈ ns) then get_column n cols else None.
Proof.
  induction ns as [|a ns IH]; cbn [flat_map].
  { by rewrite decide_False by apply not_elem_of_nil. }
  rewrite get_column_app. unfold get_column at 1.
  rewrite select_select. destruct (decide (n = a)) as [->|Hne].
  - rewrite (decide_True (P := a ∈ a :: ns)) by left.
    fold (get_column a cols).
    rewrite IH. destruct (get_column a cols); [done|].
    by destruct (decide (a ∈ ns)).
  - cbn. rewrite IH. destruct (decide (n ∈ ns)) as [Hin|Hin].
    + by rewrite (decide_True (P := n ∈ a :: ns)) by (by right).
    + rewrite (decide_False (P := n ∈ a :: ns)); [done|].
      by intros [?|?]%elem_of_cons.
Qed.

Lemma select_assign (n name : string) (s : list value) (df : DataFrame) :
  select n (df_columns (assign name s df))
  = if decide (n = name)
    then match select name (df_columns df) with
         | [] => [(name, s)]
         | l => map (fun c : string * list value => (c.1, s)) l
         end
    else select n (df_columns df).
Proof.
  unfold assign. destruct (has_column name df) eqn:Hhas; cbn [df_columns].
  - apply has_column_true in Hhas.
    assert (select name (df_columns df) <> []) as Hne
      by (by rewrite select_nil_iff; intros []).
    assert (select n
              (map (fun c : string * list value =>
                      if bool_decide (c.1 = name) then (c.1, s) else c)
                   (df_columns df))
            = if decide (n = name)
              then map (fun c : string * list value => (c.1, s))
                     (select name (df_columns df))
              else select n (df_columns df)) as ->.
    { clear. unfold select. induction (df_columns df) as [|c cols IH].
      { by destruct (decide (n = name)). }
      cbn [map]. destruct (decide (c.1 = name)) as [E|E].
      - rewrite bool_decide_eq_true_2 by done.
        destruct (decide (n = name)) as [->|Hn].
        + rewrite !filter_cons_True by done. cbn [map]. by rewrite IH.
        + rewrite !filter_cons_False by (cbn; congruence). apply IH.
      - rewrite bool_decide_eq_false_2 by done.
        destruct (decide (n = name)) as [->|Hn].
        + rewrite !filter_cons_False by done. apply IH.
        + destruct (decide (c.1 = n)).
          * rewrite !filter_cons_True by done. by rewrite IH.
          * rewrite !filter_cons_False by done. apply IH. }
    destruct (decide (n = name)); [|done].
    by destruct (select name (df_columns df)).
  - apply has_column_false in Hhas. rewrite select_app.
    destruct (decide (n = name)) as [->|Hn].
    + rewrite select_other by done. unfold select.
      by rewrite filter_cons_True by done.
    + unfold select at 2. rewrite filter_cons_False by (cbn; congruence).
      by rewrite filter_nil, app_nil_r.
Qed.

Lemma flags_of_length (df : DataFrame) (g : string) :
  length (flags_of suffix_a suffix_b df g) = nrows df.
Proof. unfold flags_of. by rewrite length_map. Qed.

Lemma select_cons (n : string) (c : string * list value)
    (cols : list (string * list value)) :
  select n (c :: cols) = select n [c] ++ select n cols.
Proof. apply (select_app n [c] cols). Qed.

Lemma select_field_frames (df : DataFrame) (groups : list string)
    (g : string) :
  select (replicate_name g)
    (flat_map (fun f => df_columns (field_frame suffix_a suffix_b df f)) groups)
  = select (replicate_name g) (flag_columns suffix_a suffix_b df groups).
Proof.
  induction groups as [|f groups IH]; [done|].
  cbn [flat_map]. rewrite select_app, IH.
  unfold field_frame, flag_columns. cbn [df_columns map].
  rewrite select_app, (select_cons _ _ (map _ groups)).
  rewrite select_other by apply side_columns_not_replicate. done.
Qed.

Lemma elem_of_flag_columns (df : DataFrame) (groups : list string)
    (c : string * list value) :
  c ∈ flag_columns suffix_a suffix_b df groups
  <-> exists g,
        g ∈ groups /\
        c = (replicate_name g, VBool <$> flags_of suffix_a suffix_b df g).
Proof.
  unfold flag_columns. rewrite list_elem_of_fmap.
  split; intros (g & ? & ?); by exists g.
Qed.

Lemma select_flag_columns_nonempty (df : DataFrame) (groups : list string)
    (g : string) :
  g ∈ groups ->
  select (replicate_name g) (flag_columns suffix_a suffix_b df groups) <> [].
Proof.
  intros Hg E.
  assert ((replicate_name g, VBool <$> flags_of suffix_a suffix_b df g)
            ∈ select (replicate_name g)
                (flag_columns suffix_a suffix_b df groups)) as Hin.
  { apply elem_of_select. split; [|done].
    apply elem_of_flag_columns. eauto. }
  rewrite E in Hin. by apply elem_of_nil in Hin.
Qed.

Lemma flat_map_ext_elem {A B : Type} (f g : A -> list B) (l : list A) :
  (forall x, x ∈ l -> f x = g x) -> flat_map f l = flat_map g l.
Proof.
  induction l as [|a l IH]; intros H; [done|]. cbn [flat_map].
  rewrite (H a) by left. rewrite IH; [done|]. intros x Hx. apply H. by right.
Qed.

Lemma flat_map_nil_elem {A B : Type} (f : A -> list B) (l : list A)
    (x : A) :
  flat_map f l = [] -> x ∈ l -> f x = [].
Proof.
  induction l as [|a l IH]; cbn [flat_map]; intros E Hx.
  { by apply elem_of_nil in Hx. }
  apply app_eq_nil in E as [E1 E2].
  apply elem_of_cons in Hx as [->|Hx]; auto.
Qed.

Lemma mapM_bool_cell (bs : list bool) :
  mapM bool_cell (map VBool bs) = Some bs.
Proof. induction bs as [|b bs IH]; [done|]. cbn. by rewrite IH. Qed.

Lemma forallb_map_id {A : Type} (p : A -> bool) (l : list A) :
  forallb (fun x : bool => x) (map p l) = forallb p l.
Proof. induction l as [|a l IH]; [done|]. cbn. by rewrite IH. Qed.

Lemma row_min_flags (df : DataFrame) (groups : list string)
    (sel : list (string * list value)) (i : nat) :
  sel <> [] ->
  (forall c, c ∈ sel <-> c ∈ flag_columns suffix_a suffix_b df groups) ->
  i < nrows df ->
  row_min (row_cells sel i)
  = Ok (VBool
          (forallb
             (fun g =>
                bool_decide (flags_of suffix_a suffix_b df g !! i = Some true))
             groups)).
Proof.
  intros Hne Hsel Hi.
  set (bit := fun c : string * list value =>
                bool_decide (c.2 !! i = Some (VBool true))).
  assert (row_cells sel i = map VBool (map bit sel)) as ->.
  { unfold row_cells. rewrite map_map. apply map_ext_in.
    intros c Hc%list_elem_of_In%Hsel%elem_of_flag_columns.
    destruct Hc as (g & _ & ->). unfold bit. cbn [snd].
    rewrite list_lookup_fmap.
    destruct (lookup_lt_is_Some_2 (flags_of suffix_a suffix_b df g) i)
      as [b Hb].
    { by rewrite flags_of_length. }
    rewrite Hb. by destruct b. }
  unfold row_min. rewrite mapM_bool_cell.
  destruct sel as [|c sel]; [done|]. cbn [map].
  rewrite fold_min_bool. f_equal. f_equal.
  change (bit c :: map bit sel) with (map bit (c :: sel)).
  rewrite forallb_map_id, (forallb_same_elements _ _ _ Hsel).
  unfold flag_columns. clear. induction groups as [|g groups IH]; [done|].
  cbn [map forallb]. rewrite IH. f_equal. unfold bit. cbn [snd].
  rewrite list_lookup_fmap.
  by destruct (flags_of suffix_a suffix_b df g !! i) as [[]|].
Qed.

Lemma replicate_names_selectable (df : DataFrame) (groups : list string)
    (n : string) :
  n ∈ dict_values (dict_comprehension replicate_name groups) ->
  exists g, n = replicate_name g /\
            select n (flag_columns suffix_a suffix_b df groups) <> [].
Proof.
  intros (g & Hg & ->)%elem_of_replicate_names. exists g. split; [done|].
  by apply select_flag_columns_nonempty.
Qed.

Lemma has_column_select (n : string) (df : DataFrame) :
  select n (df_columns df) <> [] -> has_column n df = true.
Proof.
  intros H. apply has_column_true. unfold column_names.
  destruct (decide (n ∈ (df_columns df).*1)) as [|Hn]; [done|].
  by apply select_nil_iff in Hn.
Qed.

Lemma select_assign_nonempty (name : string) (s : list value)
    (df : DataFrame) :
  select name (df_columns (assign name s df)) <> [].
Proof.
  rewrite select_assign, decide_True by done.
  by destruct (select name (df_columns df)).
Qed.

(** The frame of derived columns: the checks of every iteration, in
    order, then the flag columns picked by name. *)
Lemma derived_frame_spec (df : DataFrame) (groups : list string) :
  derived_frame suffix_a suffix_b df groups
  = rbind (rmapM (field_check suffix_a suffix_b df) groups) (fun _ =>
      match groups with
      | [] => Err ValueError
      | _ :: _ =>
          Ok (mkDataFrame (RangeIndex (nrows df))
                (derived_columns suffix_a suffix_b df groups))
      end).
Proof.
  unfold derived_frame. rewrite rmapM_compare_frame.
  2:{ apply Forall_forall. intros g Hg. by apply dict_get_comprehension. }
  destruct (rmapM (field_check suffix_a suffix_b df) groups) as [u|e];
    [|done].
  cbn [rbind].
  destruct groups as [|g0 gs]; [done|].
  set (groups := g0 :: gs).
  set (ns := dict_values (dict_comprehension replicate_name groups)).
  assert (concat_columns (map (field_frame suffix_a suffix_b df) groups)
          = Ok (mkDataFrame (df_index df)
                  (flat_map
                    (fun f => df_columns (field_frame suffix_a suffix_b df f))
                     groups))) as ->.
  { unfold concat_columns, groups. cbn [map].
    fold groups.
    change (field_frame suffix_a suffix_b df g0
            :: map (field_frame suffix_a suffix_b df) gs)
      with (map (field_frame suffix_a suffix_b df) groups).
    replace (forallb _ _) with true.
    2:{ symmetry. apply forallb_forall. intros d (g & <- & _)%in_map_iff.
        by apply bool_decide_eq_true. }
    f_equal. f_equal. generalize groups. clear.
    induction groups as [|g groups IH]; [done|]. cbn. by rewrite IH. }
  cbn [rbind]. unfold reset_index_drop. cbn [df_columns].
  change (nrows (mkDataFrame (df_index df)
                   (flat_map
                    (fun f => df_columns (field_frame suffix_a suffix_b df f))
                      groups)))
    with (nrows df).
  set (L := flat_map
              (fun f => df_columns (field_frame suffix_a suffix_b df f))
              groups).
  assert (forall n, n ∈ ns ++ ["group_replicate"] ->
                    exists g, n = replicate_name g) as Hlike.
  { intros n [(g & _ & ->)%elem_of_replicate_names|Hn]%elem_of_app;
      [by exists g|].
    apply list_elem_of_singleton in Hn as ->. by exists "group". }
  assert (loc_columns ns (mkDataFrame (RangeIndex (nrows df)) L)
          = Ok (mkDataFrame (RangeIndex (nrows df))
                  (flat_map
                  (fun n =>
                     select n (flag_columns suffix_a suffix_b df groups))
                  ns)))
    as ->.
  { unfold loc_columns. cbn [df_index df_columns].
    replace (forallb _ ns) with true.
    2:{ symmetry. apply forallb_forall. intros n Hn%list_elem_of_In.
        apply has_column_select. cbn [df_columns].
        destruct (replicate_names_selectable df groups n Hn)
          as (g & -> & Hne).
        unfold L. by rewrite select_field_frames. }
    f_equal. f_equal. apply flat_map_ext_elem. intros n Hn.
    destruct (Hlike n) as (g & ->); [apply elem_of_app; by left|].
    apply select_field_frames. }
  cbn [rbind].
  assert (min_axis_columns
            (mkDataFrame (RangeIndex (nrows df))
               (flat_map
                  (fun n =>
                     select n (flag_columns suffix_a suffix_b df groups))
                  ns))
          = Ok (VBool <$> group_flags suffix_a suffix_b df groups)) as ->.
  { unfold min_axis_columns. cbn [df_columns]. unfold nrows at 1.
    cbn [df_index]. rewrite length_RangeIndex.
    unfold group_flags. rewrite <- list_fmap_compose.
    apply rmapM_ok. apply Forall_forall. intros i Hi%elem_of_seq.
    cbn [compose]. apply row_min_flags; [| |lia].
    - intros E.
      assert (replicate_name g0 ∈ ns) as Hin.
      { apply elem_of_replicate_names. exists g0. split; [left|done]. }
      apply (select_flag_columns_nonempty df groups g0); [left|].
      exact (flat_map_nil_elem
               (fun n => select n (flag_columns suffix_a suffix_b df groups))
               ns _ E Hin).
    - intros c. rewrite list_elem_of_In, in_flat_map. split.
      + intros (n & _ & [Hc _]%list_elem_of_In%elem_of_select). done.
      + intros Hc. exists c.1. split.
        * apply list_elem_of_In, elem_of_replicate_names.
          apply elem_of_flag_columns in Hc as (g & Hg & ->). by exists g.
        * apply list_elem_of_In, elem_of_select. done. }
  cbn [rbind]. unfold loc_columns.
  replace (forallb _ (ns ++ ["group_replicate"])) with true.
  2:{ symmetry. apply forallb_forall. intros n Hn%list_elem_of_In.
      apply has_column_select. rewrite select_assign. cbn [df_columns].
      destruct (decide (n = "group_replicate")) as [->|Hne].
      { by destruct (select "group_replicate" L). }
      apply elem_of_app in Hn as [Hn|Hn%list_elem_of_singleton]; [|done].
      destruct (replicate_names_selectable df groups n Hn)
        as (g & -> & Hsel).
      unfold L. by rewrite select_field_frames. }
  f_equal. unfold derived_columns. fold groups ns.
  assert (df_index (assign "group_replicate"
                      (VBool <$> group_flags suffix_a suffix_b df groups)
                      (mkDataFrame (RangeIndex (nrows df)) L))
          = RangeIndex (nrows df)) as ->.
  { unfold assign. by destruct (has_column _ _). }
  f_equal. apply flat_map_ext_elem. intros n Hn.
  destruct (Hlike n Hn) as (g & ->).
  rewrite !select_assign. cbn [df_columns]. unfold L.
  change "group_replicate" with (replicate_name "group").
  by rewrite !select_field_frames.
Qed.

Lemma get_column_assign (n name : string) (s : list value) (df : DataFrame) :
  get_column n (df_columns (assign name s df))
  = if decide (n = name) then Some s else get_column n (df_columns df).
Proof.
  unfold get_column. rewrite select_assign.
  destruct (decide (n = name)); [|done].
  by destruct (select name (df_columns df)).
Qed.

Lemma get_column_flag_columns (df : DataFrame) (groups : list string)
    (g : string) :
  g ∈ groups ->
  get_column (replicate_name g) (flag_columns suffix_a suffix_b df groups)
  = Some (VBool <$> flags_of suffix_a suffix_b df g).
Proof.
  induction 1 as [g groups|g f groups Hg IH].
  - unfold flag_columns, get_column, select. cbn [map].
    by rewrite filter_cons_True by done.
  - unfold flag_columns, get_column, select in *. cbn [map].
    destruct (decide (replicate_name f = replicate_name g)) as [E|E].
    + rewrite filter_cons_True by done.
      by rewrite (replicate_name_inj _ _ E).
    + by rewrite filter_cons_False by done.
Qed.

(** The derived columns by name: the column of a listed field holds its
    flags (for a field called group, whose column name is that of the
    group column, the group flags), and the group column the group flags. *)
Lemma get_column_derived (df : DataFrame) (groups : list string) (g : string) :
  g ∈ groups ->
  get_column (replicate_name g) (derived_columns suffix_a suffix_b df groups)
  = Some (if decide (g = "group")
          then VBool <$> group_flags suffix_a suffix_b df groups
          else VBool <$> flags_of suffix_a suffix_b df g).
Proof.
  intros Hg. unfold derived_columns. rewrite get_column_flat_select.
  rewrite decide_True.
  2:{ apply elem_of_app. left. apply elem_of_replicate_names. by exists g. }
  rewrite get_column_assign. cbn [df_columns].
  change "group_replicate" with (replicate_name "group").
  destruct (decide (g = "group")) as [->|Hne].
  - by rewrite decide_True.
  - rewrite decide_False by (by intros ?%replicate_name_inj).
    by apply get_column_flag_columns.
Qed.

Lemma get_column_derived_group (df : DataFrame) (groups : list string) :
  get_column "group_replicate" (derived_columns suffix_a suffix_b df groups)
  = Some (VBool <$> group_flags suffix_a suffix_b df groups).
Proof.
  unfold derived_columns. rewrite get_column_flat_select.
  rewrite decide_True by (apply elem_of_app; right; left).
  rewrite get_column_assign. by rewrite decide_True.
Qed.

Lemma derived_columns_names (df : DataFrame) (groups : list string)
    (n : string) :
  n ∈ (derived_columns suffix_a suffix_b df groups).*1 ->
  n = "group_replicate" \/ exists g, g ∈ groups /\ n = replicate_name g.
Proof.
  intros (c & -> & Hc)%list_elem_of_fmap. unfold derived_columns in Hc.
  apply list_elem_of_In, in_flat_map in Hc as (n & Hn & Hc).
  apply list_elem_of_In, elem_of_select in Hc as [_ ->].
  apply list_elem_of_In, elem_of_app in Hn as [Hn|Hn].
  - right. by apply elem_of_replicate_names.
  - left. by apply list_elem_of_singleton in Hn.
Qed.

Lemma group_flags_length (df : DataFrame) (groups : list string) :
  length (group_flags suffix_a suffix_b df groups) = nrows df.
Proof. unfold group_flags. by rewrite length_map, length_seq. Qed.

Lemma group_flags_lookup (df : DataFrame) (groups : list string) (i : nat) :
  i < nrows df ->
  group_flags suffix_a suffix_b df groups !! i
  = Some (forallb
            (fun g =>
               bool_decide (flags_of suffix_a suffix_b df g !! i = Some true))
            groups).
Proof.
  intros Hi. unfold group_flags. rewrite list_lookup_fmap.
  by rewrite lookup_seq_lt.
Qed.

End Analysis.

(** ** Facts about the merge on the row index *)

Lemma join_pairs_elem (li ri : list label) (i j : nat) :
  (i, j) ∈ join_pairs li ri ->
  i < length li /\ j < length ri /\ li !! i = ri !! j.
Proof.
  unfold join_pairs. rewrite list_elem_of_In, in_flat_map.
  intros (p & Hp%list_elem_of_In & Hq%list_elem_of_In).
  apply elem_of_lookup_imap in Hp as (i' & l & -> & Hi).
  apply list_elem_of_fmap in Hq as (q & [= -> ->] & Hq).
  apply list_elem_of_filter in Hq as [Hlab Hq].
  apply elem_of_lookup_imap in Hq as (j' & l' & -> & Hj).
  cbn in *. subst l'. split; [by eapply lookup_lt_Some|].
  split; [by eapply lookup_lt_Some|]. by rewrite Hi, Hj.
Qed.

Lemma imap_pair_RangeIndex (n : nat) :
  imap pair (RangeIndex n)
  = map (fun i : nat => (i, LInt (Z.of_nat i))) (seq 0 n).
Proof.
  apply list_eq. intros i. unfold RangeIndex.
  rewrite list_lookup_imap, !list_lookup_fmap.
  destruct (decide (i < n)) as [Hi|Hi].
  - by rewrite lookup_seq_lt by done.
  - by rewrite lookup_seq_ge by lia.
Qed.

Lemma filter_label_above (i a n : nat) :
  i < a ->
  filter (fun q : nat * label => q.2 = LInt (Z.of_nat i))
    (map (fun j : nat => (j, LInt (Z.of_nat j))) (seq a n)) = [].
Proof.
  revert a. induction n as [|n IH]; intros a Ha; [done|]. cbn [seq map].
  rewrite filter_cons_False; [apply IH; lia|].
  cbn. intros [= E]. lia.
Qed.

Lemma filter_label_diag (i a n : nat) :
  (a <= i /\ i < a + n) ->
  filter (fun q : nat * label => q.2 = LInt (Z.of_nat i))
    (map (fun j : nat => (j, LInt (Z.of_nat j))) (seq a n))
  = [(i, LInt (Z.of_nat i))].
Proof.
  revert a. induction n as [|n IH]; intros a Ha; [lia|]. cbn [seq map].
  destruct (decide (a = i)) as [->|Hne].
  - rewrite filter_cons_True by done. by rewrite filter_label_above by lia.
  - rewrite filter_cons_False; [apply IH; lia|].
    cbn. intros [= E]. lia.
Qed.

Lemma join_pairs_RangeIndex (n : nat) :
  join_pairs (RangeIndex n) (RangeIndex n)
  = map (fun i : nat => (i, i)) (seq 0 n).
Proof.
  unfold join_pairs. rewrite imap_pair_RangeIndex.
  assert (forall l : list nat,
    Forall (fun i => i < n) l ->
    flat_map
      (fun p : nat * label =>
         map (fun q : nat * label => (p.1, q.1))
           (filter (fun q : nat * label => q.2 = p.2)
              (map (fun i : nat => (i, LInt (Z.of_nat i))) (seq 0 n))))
      (map (fun i : nat => (i, LInt (Z.of_nat i))) l)
    = map (fun i : nat => (i, i)) l) as H.
  { induction 1 as [|i l Hi _ IH]; [done|]. cbn [map flat_map fst snd].
    rewrite filter_label_diag by lia. cbn [map app fst]. by rewrite IH. }
  apply H. apply Forall_forall. intros i Hi%elem_of_seq. lia.
Qed.

Lemma lookup_all {A : Type} (d : A) (l : list A) :
  map (fun p => default d (l !! p)) (seq 0 (length l)) = l.
Proof.
  apply list_eq. intros i. rewrite list_lookup_fmap.
  destruct (decide (i < length l)) as [Hi|Hi].
  - rewrite lookup_seq_lt by done. cbn.
    destruct (lookup_lt_is_Some_2 l i Hi) as [x Hx]. by rewrite Hx.
  - rewrite lookup_seq_ge by lia. by rewrite lookup_ge_None_2 by lia.
Qed.

Lemma get_column_map (n : string) (f : list value -> list value)
    (cols : list (string * list value)) :
  get_column n (map (fun c : string * list value => (c.1, f c.2)) cols)
  = f <$> get_column n cols.
Proof.
  unfold get_column, select. induction cols as [|c cols IH]; [done|].
  cbn [map]. destruct (decide (c.1 = n)) as [E|E].
  - by rewrite !filter_cons_True by done.
  - by rewrite !filter_cons_False by done.
Qed.

Lemma merge_no_overlap (l r : DataFrame) :
  (forall n, n ∈ column_names r -> n ∉ column_names l) ->
  merge_on_index l r
  = let ps := join_pairs (df_index l) (df_index r) in
    mkDataFrame (take_labels ps.*1 (df_index l))
      (map (fun c : string * list value => (c.1, take_rows ps.*1 c.2))
         (df_columns l) ++
       map (fun c : string * list value => (c.1, take_rows ps.*2 c.2))
         (df_columns r)).
Proof.
  intros Hfresh. unfold merge_on_index. cbn zeta. f_equal. f_equal.
  - apply map_ext_in. intros c Hc. unfold merge_name.
    rewrite bool_decide_eq_false_2; [done|]. intros [H1 H2].
    by apply (Hfresh c.1).
  - apply map_ext_in. intros c Hc. unfold merge_name.
    rewrite bool_decide_eq_false_2; [done|]. intros [H1 H2].
    by apply (Hfresh c.1).
Qed.

Lemma cell_merge_right (l r : DataFrame) (n : string) (t : nat) :
  (forall x, x ∈ column_names r -> x ∉ column_names l) ->
  n ∉ column_names l ->
  cell (merge_on_index l r) n t
  = s ← get_column n (df_columns r);
    (fun p => default VNaN (s !! p))
      <$> ((join_pairs (df_index l) (df_index r)).*2 !! t).
Proof.
  intros Hov Hn. rewrite merge_no_overlap by done. unfold cell. cbn zeta.
  cbn [df_columns]. rewrite get_column_app, get_column_other.
  2:{ rewrite <- list_fmap_compose. exact Hn. }
  rewrite get_column_map. destruct (get_column n (df_columns r)); [|done].
  cbn. unfold take_rows. by rewrite list_lookup_fmap.
Qed.

(** ** Calls seen through the store *)

Section Calls.

Variables suffix_a suffix_b : string.

Hypothesis Hrep : suffixes_ok suffix_a suffix_b.

Lemma returns_frame (h : list DataFrame) (r : ref) (df : DataFrame)
    (groups : list string) (out : DataFrame) :
  h !! r = Some df ->
  returns suffix_a suffix_b h r groups out
  <-> assign_replicates_frame suffix_a suffix_b df groups = Ok out.
Proof.
  intros Hr. unfold returns.
  destruct (assign_replicates_run suffix_a suffix_b h r df groups Hr)
    as (tmp & ->).
  destruct (assign_replicates_frame suffix_a suffix_b df groups) as [o|e].
  - split.
    + intros (r' & h' & [= <- <-] & Hout).
      rewrite (assoc_L (++)), lookup_snoc_new in Hout. congruence.
    + intros [= ->]. eexists _, _. split; [done|].
      by rewrite (assoc_L (++)), lookup_snoc_new.
  - split; [by intros (? & ? & ? & _)|done].
Qed.

Lemma raises_frame (h : list DataFrame) (r : ref) (df : DataFrame)
    (groups : list string) (e : exn) :
  h !! r = Some df ->
  raises suffix_a suffix_b h r groups e
  <-> assign_replicates_frame suffix_a suffix_b df groups = Err e.
Proof.
  intros Hr. unfold raises.
  destruct (assign_replicates_run suffix_a suffix_b h r df groups Hr)
    as (tmp & ->).
  destruct (assign_replicates_frame suffix_a suffix_b df groups) as [o|e'].
  - split; [by intros (? & ?)|done].
  - split; [by intros (? & [= ->])|intros [= ->]; by eexists].
Qed.

(** The returned frame is the input merged with the derived columns. *)
Lemma frame_ok (df : DataFrame) (groups : list string) (out : DataFrame) :
  assign_replicates_frame suffix_a suffix_b df groups = Ok out ->
  groups <> [] /\
  (exists u, rmapM (field_check suffix_a suffix_b df) groups = Ok u) /\
  out = merge_on_index df
          (mkDataFrame (RangeIndex (nrows df))
             (derived_columns suffix_a suffix_b df groups)).
Proof.
  unfold assign_replicates_frame. rewrite derived_frame_spec by done.
  destruct (rmapM _ groups) as [u|e]; [|done]. cbn [rbind].
  destruct groups as [|g groups]; [done|]. cbn [rbind].
  intros [= <-]. split; [done|]. split; [by exists u|done].
Qed.

Lemma frame_of_checks (df : DataFrame) (groups : list string) (u : list unit) :
  groups <> [] ->
  rmapM (field_check suffix_a suffix_b df) groups = Ok u ->
  assign_replicates_frame suffix_a suffix_b df groups
  = Ok (merge_on_index df
          (mkDataFrame (RangeIndex (nrows df))
             (derived_columns suffix_a suffix_b df groups))).
Proof.
  intros Hne Hu. unfold assign_replicates_frame.
  rewrite derived_frame_spec, Hu by done. cbn [rbind].
  by destruct groups.
Qed.

Lemma derived_no_overlap (df : DataFrame) (groups : list string) :
  fresh_names df groups ->
  forall x,
    x ∈ column_names
          (mkDataFrame (RangeIndex (nrows df))
             (derived_columns suffix_a suffix_b df groups)) ->
    x ∉ column_names df.
Proof.
  intros [Hg Hf] x Hx. unfold column_names in Hx. cbn [df_columns] in Hx.
  apply derived_columns_names in Hx as [->|(g & Hin & ->)]; auto.
Qed.

(** A cell of a derived column of the returned frame: the flag found at
    the row of the derived frame that the merge joined. *)
Lemma cell_of_flags (df : DataFrame) (groups : list string) (n : string)
    (bs : list bool) (t : nat) :
  fresh_names df groups ->
  n ∉ column_names df ->
  get_column n (derived_columns suffix_a suffix_b df groups)
  = Some (VBool <$> bs) ->
  length bs = nrows df ->
  t < nrows (merge_on_index df
               (mkDataFrame (RangeIndex (nrows df))
                  (derived_columns suffix_a suffix_b df groups))) ->
  exists j b,
    (join_pairs (df_index df) (RangeIndex (nrows df))).*2 !! t = Some j /\
    j < nrows df /\ bs !! j = Some b /\
    cell (merge_on_index df
            (mkDataFrame (RangeIndex (nrows df))
               (derived_columns suffix_a suffix_b df groups))) n t
    = Some (VBool b).
Proof.
  intros Hfresh Hn Hcol Hlen Ht.
  rewrite cell_merge_right by (by apply derived_no_overlap || done).
  cbn [df_columns df_index]. rewrite Hcol. cbn.
  unfold nrows, merge_on_index in Ht. cbn [df_index] in Ht.
  unfold take_labels in Ht. rewrite length_map, length_fmap in Ht.
  change (length (df_index df)) with (nrows df) in Ht.
  destruct (lookup_lt_is_Some_2 _ _ Ht) as [[i j] Hij].
  assert ((i, j) ∈ join_pairs (df_index df) (RangeIndex (nrows df))) as Hin
    by (by eapply list_elem_of_lookup_2).
  apply join_pairs_elem in Hin as (_ & Hj & _).
  rewrite length_RangeIndex in Hj.
  destruct (lookup_lt_is_Some_2 bs j) as [b Hb]; [lia|].
  exists j, b. rewrite list_lookup_fmap, Hij. cbn.
  rewrite list_lookup_fmap, Hb. done.
Qed.

End Calls.

(** ** Properties of assign_replicates *)

Lemma forallb_absorb {A : Type} `{EqDecision A} (Y : A -> bool) (a : A)
    (l : list A) :
  forallb (fun x => if decide (x = a) then forallb Y l else Y x) l
  = forallb Y l.
Proof.
  apply eq_true_iff_eq. rewrite !forallb_forall. split.
  - intros H x Hx. specialize (H x Hx).
    destruct (decide (x = a)); [|done].
    rewrite forallb_forall in H. by apply H.
  - intros H x Hx. destruct (decide (x = a)); [|by apply H].
    by apply forallb_forall.
Qed.

Lemma forallb_ext_elem {A : Type} (p q : A -> bool) (l : list A) :
  (forall x, x ∈ l -> p x = q x) -> forallb p l = forallb q l.
Proof.
  induction l as [|a l IH]; intros H; [done|]. cbn [forallb].
  rewrite (H a) by left. rewrite IH; [done|]. intros x Hx. apply H. by right.
Qed.

(** C1: in the table that [assign_replicates] returns, every
    [g_replicate] cell of a listed field [g] is a boolean, and the
    [group_replicate] cell of each row is the logical AND of that row's
    [g_replicate] cells over all listed fields [g], although the program
    computes it as a row-wise minimum.  The derived column names are
    assumed new to the table, so that they name the derived columns in the
    result. *)
Theorem group_replicate_is_conjunction (suffix_a suffix_b : string)
    (h : list DataFrame) (r : ref) (df out : DataFrame)
    (groups : list string) :
  suffixes_ok suffix_a suffix_b ->
  h !! r = Some df ->
  fresh_names df groups ->
  returns suffix_a suffix_b h r groups out ->
  forall t, t < nrows out ->
    (forall g, g ∈ groups ->
       exists b, cell out (replicate_name g) t = Some (VBool b)) /\
    cell out "group_replicate" t
    = Some (VBool
              (forallb
                 (fun g =>
                    bool_decide
                      (cell out (replicate_name g) t = Some (VBool true)))
                 groups)).
Proof.
  intros Hrep Hr Hfresh Hret t Ht.
  apply (returns_frame suffix_a suffix_b h r df) in Hret; [|done].
  apply frame_ok in Hret as (Hne & _ & ->); [|done].
  destruct (cell_of_flags suffix_a suffix_b df groups "group_replicate"
              (group_flags suffix_a suffix_b df groups) t)
    as (j & b & Hj & Hjn & Hb & Hcell); try done.
  { apply Hfresh. }
  { by apply get_column_derived_group. }
  { apply group_flags_length. }
  rewrite group_flags_lookup in Hb by done. injection Hb as <-.
  set (Y := fun g =>
              bool_decide (flags_of suffix_a suffix_b df g !! j = Some true)).
  assert (forall g, g ∈ groups ->
            cell (merge_on_index df
                    (mkDataFrame (RangeIndex (nrows df))
                       (derived_columns suffix_a suffix_b df groups)))
              (replicate_name g) t
            = Some (VBool (if decide (g = "group") then forallb Y groups
                           else Y g))) as Hcells.
  { intros g Hg.
    destruct (cell_of_flags suffix_a suffix_b df groups
                (replicate_name g)
                (if decide (g = "group")
                 then group_flags suffix_a suffix_b df groups
                 else flags_of suffix_a suffix_b df g) t)
      as (j' & b' & Hj' & _ & Hb' & Hcell'); try done.
    { by apply Hfresh. }
    { rewrite get_column_derived by done. by destruct (decide (g = "group")). }
    { destruct (decide (g = "group"));
        [apply group_flags_length|apply flags_of_length]. }
    rewrite Hj in Hj'. injection Hj' as <-. rewrite Hcell'. do 2 f_equal.
    destruct (decide (g = "group")).
    - rewrite group_flags_lookup in Hb' by done. by injection Hb' as <-.
    - unfold Y. rewrite Hb'. by destruct b'. }
  split.
  - intros g Hg. rewrite (Hcells g Hg). eauto.
  - rewrite Hcell. do 2 f_equal.
    change (forallb _ groups = forallb _ groups)
      with (forallb Y groups
            = forallb
                (fun g =>
                   bool_decide
                     (cell (merge_on_index df
                              (mkDataFrame (RangeIndex (nrows df))
                                 (derived_columns suffix_a suffix_b df
                                    groups)))
                        (replicate_name g) t = Some (VBool true)))
                groups).
    rewrite <- (forallb_absorb Y "group" groups) at 1.
    apply forallb_ext_elem. intros g Hg. rewrite (Hcells g Hg).
    by destruct (if decide (g = "group") then forallb Y groups else Y g).
Qed.

(** *** Tables with the default row index *)

Section DefaultIndex.

Variables suffix_a suffix_b : string.

Hypothesis Hrep : suffixes_ok suffix_a suffix_b.

Variable df : DataFrame.

Hypothesis Hwf : well_formed df.

Hypothesis Hidx : df_index df = RangeIndex (nrows df).

Lemma eq_mask_length (f : string) :
  has_column (f +:+ suffix_a) df = true ->
  has_column (f +:+ suffix_b) df = true ->
  length (eq_mask suffix_a suffix_b df f) = nrows df.
Proof.
  intros Ha Hb. unfold eq_mask.
  destruct (side_columns_two suffix_a suffix_b df f Ha Hb)
    as (c0 & c1 & rest & Hside).
  rewrite Hside. unfold series_eq. rewrite length_zip_with.
  assert (forall c, c ∈ side_columns suffix_a suffix_b df f ->
                    length c.2 = nrows df) as Hlen.
  { intros c [Hc _]%side_columns_names.
    unfold well_formed in Hwf. rewrite Forall_forall in Hwf. by apply Hwf. }
  rewrite (Hlen c0), (Hlen c1); [lia| |]; rewrite Hside.
  - right. left.
  - left.
Qed.

Lemma flag_row_default (f : string) (i : nat) :
  LInt (Z.of_nat i) ∈ flag_rows suffix_a suffix_b df f
  <-> eq_mask suffix_a suffix_b df f !! i = Some true.
Proof. unfold flag_rows. by rewrite elem_of_as_labels, elem_of_np_where. Qed.

Lemma field_check_default (f : string) :
  nrows df <> 0 ->
  has_column (f +:+ suffix_a) df = true ->
  has_column (f +:+ suffix_b) df = true ->
  field_check suffix_a suffix_b df f = Ok tt.
Proof.
  intros Hrows Ha Hb. unfold field_check. rewrite Ha, Hb. cbn [andb].
  rewrite bool_decide_eq_false_2 by done.
  replace (forallb _ _) with true; [done|].
  symmetry. apply forallb_forall. intros l Hl%list_elem_of_In.
  apply bool_decide_eq_true. unfold flag_rows, as_labels in Hl.
  apply list_elem_of_fmap in Hl as (p & -> & Hp%elem_of_np_where).
  apply lookup_lt_Some in Hp. rewrite eq_mask_length in Hp by done.
  rewrite Hidx. unfold RangeIndex. apply list_elem_of_fmap.
  exists p. split; [done|]. apply elem_of_seq. lia.
Qed.

(** With the default index a row is flagged exactly when its two sides are
    equal. *)
Lemma flags_of_default (f : string) :
  has_column (f +:+ suffix_a) df = true ->
  has_column (f +:+ suffix_b) df = true ->
  flags_of suffix_a suffix_b df f = eq_mask suffix_a suffix_b df f.
Proof.
  intros Ha Hb. unfold flags_of. rewrite Hidx. unfold RangeIndex.
  rewrite map_map. apply list_eq. intros i. rewrite list_lookup_fmap.
  destruct (decide (i < nrows df)) as [Hi|Hi].
  - rewrite lookup_seq_lt by done. cbn.
    destruct (lookup_lt_is_Some_2 (eq_mask suffix_a suffix_b df f) i)
      as [b Hb']; [by rewrite eq_mask_length|].
    rewrite Hb'. f_equal. destruct b.
    + apply bool_decide_eq_true. by apply flag_row_default.
    + apply bool_decide_eq_false. rewrite flag_row_default. congruence.
  - rewrite lookup_seq_ge by lia. cbn. symmetry. apply lookup_ge_None_2.
    rewrite eq_mask_length by done. lia.
Qed.

Lemma checks_default (groups : list string) :
  nrows df <> 0 ->
  (forall g, g ∈ groups ->
     has_column (g +:+ suffix_a) df = true /\
     has_column (g +:+ suffix_b) df = true) ->
  rmapM (field_check suffix_a suffix_b df) groups
  = Ok (map (fun _ => tt) groups).
Proof.
  intros Hrows H. apply rmapM_ok. apply Forall_forall. intros g Hg.
  destruct (H g Hg). by apply field_check_default.
Qed.

Lemma fst_diag (l : list nat) : (map (fun i : nat => (i, i)) l).*1 = l.
Proof. induction l as [|a l IH]; [done|]. cbn. by rewrite IH. Qed.

Lemma snd_diag (l : list nat) : (map (fun i : nat => (i, i)) l).*2 = l.
Proof. induction l as [|a l IH]; [done|]. cbn. by rewrite IH. Qed.

Lemma take_rows_all (s : list value) :
  length s = nrows df -> take_rows (seq 0 (nrows df)) s = s.
Proof. intros <-. apply lookup_all. Qed.

(** Merging with a frame on the default index keeps the rows of the table
    as they are. *)
Lemma merge_default_index (k : DataFrame) :
  df_index k = RangeIndex (nrows df) ->
  df_index (merge_on_index df k) = df_index df /\
  (df_columns (merge_on_index df k)).*2
  = (df_columns df).*2 ++ (take_rows (seq 0 (nrows df)) <$> (df_columns k).*2).
Proof.
  intros Hk. unfold merge_on_index. cbn zeta. cbn [df_index df_columns].
  rewrite Hk, Hidx, join_pairs_RangeIndex.
  rewrite fst_diag, snd_diag. split.
  - unfold take_labels. rewrite <- (length_RangeIndex (nrows df)) at 1.
    apply lookup_all.
  - rewrite fmap_app. f_equal.
    + rewrite <- list_fmap_compose. apply list_eq. intros i.
      rewrite !list_lookup_fmap.
      destruct (df_columns df !! i) as [c|] eqn:E; [|done]. cbn. f_equal.
      apply take_rows_all. unfold well_formed in Hwf.
      rewrite Forall_forall in Hwf. apply Hwf.
      by eapply list_elem_of_lookup_2.
    + by rewrite <- !list_fmap_compose.
Qed.

Lemma merge_default_index_fresh (k : DataFrame) :
  df_index k = RangeIndex (nrows df) ->
  (forall x, x ∈ column_names k -> x ∉ column_names df) ->
  Forall (fun c : string * list value => length c.2 = nrows df)
    (df_columns k) ->
  merge_on_index df k
  = mkDataFrame (df_index df) (df_columns df ++ df_columns k).
Proof.
  intros Hk Hov Hlen. rewrite merge_no_overlap by done. cbn zeta.
  rewrite Hk, Hidx, join_pairs_RangeIndex.
  rewrite fst_diag, snd_diag. f_equal.
  - unfold take_labels. rewrite <- (length_RangeIndex (nrows df)) at 1.
    apply lookup_all.
  - f_equal.
    + rewrite <- (map_id (df_columns df)) at 2. apply map_ext_in.
      intros [n s] Hc%list_elem_of_In. cbn. f_equal. apply take_rows_all.
      unfold well_formed in Hwf. rewrite Forall_forall in Hwf.
      by apply (Hwf (n, s)).
    + rewrite <- (map_id (df_columns k)) at 2. apply map_ext_in.
      intros [n s] Hc%list_elem_of_In. cbn. f_equal. apply take_rows_all.
      rewrite Forall_forall in Hlen. by apply (Hlen (n, s)).
Qed.

End DefaultIndex.

Lemma elem_of_assign (c : string * list value) (name : string)
    (s : list value) (d : DataFrame) :
  c ∈ df_columns (assign name s d) -> c.2 = s \/ c ∈ df_columns d.
Proof.
  unfold assign. destruct (has_column name d); cbn [df_columns].
  - intros (c' & -> & Hc')%list_elem_of_fmap.
    destruct (bool_decide (c'.1 = name)); [by left|by right].
  - intros [Hc|Hc%list_elem_of_singleton]%elem_of_app; [by right|].
    subst c. by left.
Qed.

Lemma derived_columns_length (suffix_a suffix_b : string) (df : DataFrame)
    (groups : list string) :
  Forall (fun c : string * list value => length c.2 = nrows df)
    (derived_columns suffix_a suffix_b df groups).
Proof.
  apply Forall_forall. intros c Hc. unfold derived_columns in Hc.
  apply list_elem_of_In, in_flat_map in Hc as (n & _ & Hc).
  apply list_elem_of_In, elem_of_select in Hc as [Hc _].
  apply elem_of_assign in Hc as [->|Hc].
  - by rewrite length_fmap, group_flags_length.
  - cbn [df_columns] in Hc. apply elem_of_flag_columns in Hc as (g & _ & ->).
    cbn. by rewrite length_fmap, flags_of_length.
Qed.

Lemma columns_present_has (suffix_a suffix_b : string) (df : DataFrame)
    (groups : list string) :
  columns_present suffix_a suffix_b df groups ->
  forall g, g ∈ groups ->
    has_column (g +:+ suffix_a) df = true /\
    has_column (g +:+ suffix_b) df = true.
Proof.
  intros H g Hg. destruct (H g Hg). by rewrite !has_column_true.
Qed.

(** The frame a call returns for a table with the default index: the table
    with the derived columns. *)
Lemma default_index_frame (suffix_a suffix_b : string) (df : DataFrame)
    (groups : list string) :
  suffixes_ok suffix_a suffix_b ->
  well_formed df ->
  df_index df = RangeIndex (nrows df) ->
  nrows df <> 0 ->
  groups <> [] ->
  columns_present suffix_a suffix_b df groups ->
  assign_replicates_frame suffix_a suffix_b df groups
  = Ok (merge_on_index df
          (mkDataFrame (RangeIndex (nrows df))
             (derived_columns suffix_a suffix_b df groups))).
Proof.
  intros Hrep Hwf Hidx Hrows Hne Hcols.
  eapply frame_of_checks; [done|done|].
  apply checks_default; try done. by apply columns_present_has.
Qed.

(** C2, amended: for a well-formed table with at least one row on the
    default row index 0 .. n-1, a non-empty list of grouping fields and all
    required suffixed columns present, [assign_replicates] returns a table
    with the same row index, hence the same rows in the same order; every
    column of the input keeps its position and values, and columns are only
    appended (under their own names when the derived names are new to the
    table). *)
Theorem rows_preserved_on_default_index (suffix_a suffix_b : string)
    (h : list DataFrame) (r : ref) (df : DataFrame) (groups : list string) :
  suffixes_ok suffix_a suffix_b ->
  h !! r = Some df ->
  well_formed df ->
  df_index df = RangeIndex (nrows df) ->
  nrows df <> 0 ->
  groups <> [] ->
  columns_present suffix_a suffix_b df groups ->
  exists out,
    returns suffix_a suffix_b h r groups out /\
    df_index out = df_index df /\
    nrows out = nrows df /\
    (exists extra, (df_columns out).*2 = (df_columns df).*2 ++ extra) /\
    (fresh_names df groups ->
     exists extra, df_columns out = df_columns df ++ extra).
Proof.
  intros Hrep Hr Hwf Hidx Hrows Hne Hcols.
  set (k := mkDataFrame (RangeIndex (nrows df))
              (derived_columns suffix_a suffix_b df groups)).
  exists (merge_on_index df k).
  destruct (merge_default_index df Hwf Hidx k eq_refl) as [Hi Hc].
  split; [|split; [done|split; [|split]]].
  - apply (returns_frame suffix_a suffix_b h r df); [done|].
    by apply default_index_frame.
  - unfold nrows. by rewrite Hi.
  - eexists. exact Hc.
  - intros Hfresh. exists (df_columns k).
    rewrite (merge_default_index_fresh df Hwf Hidx k); try done.
    + by apply derived_no_overlap.
    + apply derived_columns_length.
Qed.

Lemma field_check_cases (suffix_a suffix_b : string) (df : DataFrame)
    (f : string) :
  field_check suffix_a suffix_b df f = Ok tt \/
  field_check suffix_a suffix_b df f = Err (AssertionError not_found_msg) \/
  field_check suffix_a suffix_b df f = Err KeyError \/
  (field_check suffix_a suffix_b df f = Err ValueError /\ nrows df = 0).
Proof.
  unfold field_check. destruct (_ && _); [|by right; left].
  destruct (decide (nrows df = 0)) as [E|E].
  - rewrite bool_decide_eq_true_2 by done. by right; right; right.
  - rewrite bool_decide_eq_false_2 by done.
    destruct (forallb _ _); [by left|by right; right; left].
Qed.

Lemma field_check_missing (suffix_a suffix_b : string) (df : DataFrame)
    (f : string) :
  f +:+ suffix_a ∉ column_names df \/ f +:+ suffix_b ∉ column_names df ->
  field_check suffix_a suffix_b df f = Err (AssertionError not_found_msg).
Proof.
  intros H. unfold field_check.
  destruct H as [H|H]; apply has_column_false in H; rewrite H;
    [done|by rewrite andb_false_r].
Qed.

Lemma field_check_ok_present (suffix_a suffix_b : string) (df : DataFrame)
    (f : string) (u : unit) :
  field_check suffix_a suffix_b df f = Ok u ->
  has_column (f +:+ suffix_a) df = true /\
  has_column (f +:+ suffix_b) df = true.
Proof.
  unfold field_check.
  destruct (has_column (f +:+ suffix_a) df), (has_column (f +:+ suffix_b) df);
    done.
Qed.

Lemma checks_ok_each (suffix_a suffix_b : string) (df : DataFrame)
    (groups : list string) (u : list unit) :
  rmapM (field_check suffix_a suffix_b df) groups = Ok u ->
  forall g, g ∈ groups ->
    has_column (g +:+ suffix_a) df = true /\
    has_column (g +:+ suffix_b) df = true.
Proof.
  revert u. induction groups as [|f groups IH]; intros u Hu g Hg.
  { by apply elem_of_nil in Hg. }
  cbn [rmapM] in Hu.
  destruct (field_check suffix_a suffix_b df f) as [v|e] eqn:Ef; [|done].
  cbn [rbind] in Hu.
  destruct (rmapM _ groups) as [vs|e] eqn:Egs; [|done].
  apply elem_of_cons in Hg as [->|Hg].
  - by eapply field_check_ok_present.
  - by eapply IH.
Qed.

(** When a listed field lacks a column, some iteration fails: the one of
    that field with the assertion, unless an earlier one fails first. *)
Lemma checks_fail (suffix_a suffix_b : string) (df : DataFrame)
    (groups : list string) (f : string) :
  f ∈ groups ->
  f +:+ suffix_a ∉ column_names df \/ f +:+ suffix_b ∉ column_names df ->
  exists e,
    rmapM (field_check suffix_a suffix_b df) groups = Err e /\
    (e = AssertionError not_found_msg \/ e = KeyError \/ e = ValueError) /\
    (well_formed df -> df_index df = RangeIndex (nrows df) ->
     nrows df <> 0 -> e = AssertionError not_found_msg) /\
    (nrows df = 0 -> e <> KeyError).
Proof.
  intros Hf Hmiss. induction Hf as [f groups|f g groups Hf IH].
  - exists (AssertionError not_found_msg). cbn [rmapM].
    rewrite field_check_missing by done. auto.
  - destruct (IH Hmiss) as (e & He & Hcases & Hdef & Hempty).
    cbn [rmapM]. rewrite He.
    destruct (field_check_cases suffix_a suffix_b df g) as [E|[E|[E|[E E0]]]];
      rewrite E; cbn [rbind].
    + by exists e.
    + exists (AssertionError not_found_msg). auto.
    + exists KeyError. split; [done|]. split; [by right; left|]. split.
      * intros Hwf Hidx Hrows. exfalso.
        destruct (decide (has_column (g +:+ suffix_a) df = true
                          /\ has_column (g +:+ suffix_b) df = true))
          as [[Ha Hb]|Hno].
        -- by rewrite field_check_default in E.
        -- unfold field_check in E.
           destruct (has_column (g +:+ suffix_a) df),
                    (has_column (g +:+ suffix_b) df); try done.
           by destruct Hno.
      * intros Hrows. exfalso. unfold field_check in E.
        rewrite (bool_decide_eq_true_2 _ Hrows) in E.
        by destruct (_ && _).
    + exists ValueError. split; [done|]. split; [by right; right|].
      split; [done|done].
Qed.

(** The store after a call: every object that existed before is as it was,
    and a returned reference is a new object. *)
Lemma run_store (suffix_a suffix_b : string) (h : list DataFrame) (r : ref)
    (df : DataFrame) (groups : list string) (res : result ref)
    (h' : list DataFrame) :
  h !! r = Some df ->
  assign_replicates suffix_a suffix_b r groups h = (res, h') ->
  h `prefix_of` h' /\ (forall r', res = Ok r' -> length h <= r').
Proof.
  intros Hr.
  destruct (assign_replicates_run suffix_a suffix_b h r df groups Hr)
    as (tmp & ->).
  destruct (assign_replicates_frame suffix_a suffix_b df groups) as [out|e];
    intros [= <- <-].
  - split; [by eexists|]. intros r' [= <-]. rewrite length_app. lia.
  - split; [by eexists|]. intros; discriminate.
Qed.

Lemma checks_errors (suffix_a suffix_b : string) (df : DataFrame)
    (groups : list string) (e : exn) :
  rmapM (field_check suffix_a suffix_b df) groups = Err e ->
  e = AssertionError not_found_msg \/ e = KeyError \/ e = ValueError.
Proof.
  induction groups as [|g groups IH]; cbn [rmapM]; [done|].
  destruct (field_check_cases suffix_a suffix_b df g) as [E|[E|[E|[E _]]]];
    rewrite E; cbn [rbind].
  - destruct (rmapM _ groups) as [u|e']; [done|].
    intros [= <-]. by apply IH.
  - intros [= <-]. by left.
  - intros [= <-]. by right; left.
  - intros [= <-]. by right; right.
Qed.

(** The exceptions a call can raise: the failed assertion, the KeyError of
    a label-based assignment, and the ValueError of an empty concatenation
    or of a new column set on a table without rows.  The cases of the
    pandas operations that are left unmodelled are never reached. *)
Lemma raised_exceptions (suffix_a suffix_b : string) (h : list DataFrame)
    (r : ref) (df : DataFrame) (groups : list string) (e : exn) :
  suffixes_ok suffix_a suffix_b ->
  h !! r = Some df ->
  raises suffix_a suffix_b h r groups e ->
  e = AssertionError not_found_msg \/ e = KeyError \/ e = ValueError.
Proof.
  intros Hrep Hr Hraise.
  apply (raises_frame suffix_a suffix_b h r df) in Hraise; [|done].
  unfold assign_replicates_frame in Hraise.
  rewrite derived_frame_spec in Hraise by done.
  destruct (rmapM _ groups) as [u|e'] eqn:E; cbn [rbind] in Hraise.
  - destruct groups; [|done]. injection Hraise as <-. auto.
  - injection Hraise as <-. apply checks_errors in E. tauto.
Qed.

(** C3, amended: when some listed grouping field lacks one of its two
    suffixed columns, [assign_replicates] raises and returns no table, and
    every object of the store, the input table included, is as it was
    before the call.  The exception is the failed assertion (the SchemaError
    of the specification) whenever the table is well formed, has at least
    one row and is on the default row index; on another index an earlier
    field may raise KeyError first, and on a table without rows an earlier
    field whose columns are present raises ValueError first (never
    KeyError). *)
Theorem missing_column_raises (suffix_a suffix_b : string)
    (h : list DataFrame) (r : ref) (df : DataFrame) (groups : list string)
    (f : string) :
  suffixes_ok suffix_a suffix_b ->
  h !! r = Some df ->
  f ∈ groups ->
  f +:+ suffix_a ∉ column_names df \/ f +:+ suffix_b ∉ column_names df ->
  exists e h',
    assign_replicates suffix_a suffix_b r groups h = (Err e, h') /\
    (e = AssertionError not_found_msg \/ e = KeyError \/ e = ValueError) /\
    h `prefix_of` h' /\ h' !! r = Some df /\
    (well_formed df -> df_index df = RangeIndex (nrows df) ->
     nrows df <> 0 -> e = AssertionError not_found_msg) /\
    (nrows df = 0 -> e <> KeyError).
Proof.
  intros Hrep Hr Hf Hmiss.
  destruct (checks_fail suffix_a suffix_b df groups f Hf Hmiss)
    as (e & He & Hcases & Hdef & Hempty).
  assert (assign_replicates_frame suffix_a suffix_b df groups = Err e) as Hfr.
  { unfold assign_replicates_frame. rewrite derived_frame_spec by done.
    by rewrite He. }
  apply (raises_frame suffix_a suffix_b h r df) in Hfr as [h' Hrun]; [|done].
  exists e, h'. split; [done|]. split; [done|].
  destruct (run_store _ _ _ _ _ _ _ _ Hr Hrun) as [Hpre _].
  split; [done|]. split; [|done].
  by eapply prefix_lookup_Some.
Qed.

(** C7: a call does not mutate the caller's table: the object behind the
    argument, like every object that existed before the call, is the same
    after it, whether the call returns or raises; and a returned table is a
    new object, distinct from the argument. *)
Theorem input_not_mutated (suffix_a suffix_b : string) (h : list DataFrame)
    (r : ref) (df : DataFrame) (groups : list string) (res : result ref)
    (h' : list DataFrame) :
  h !! r = Some df ->
  assign_replicates suffix_a suffix_b r groups h = (res, h') ->
  h' !! r = Some df /\
  h `prefix_of` h' /\
  (forall r', res = Ok r' -> r' <> r /\ h !! r' = None /\ is_Some (h' !! r')).
Proof.
  intros Hr Hrun.
  destruct (run_store _ _ _ _ _ _ _ _ Hr Hrun) as [Hpre Hnew].
  split; [by eapply prefix_lookup_Some|]. split; [done|].
  intros r' ->. specialize (Hnew r' eq_refl).
  pose proof (lookup_lt_Some _ _ _ Hr) as Hlt.
  split; [lia|]. split; [by apply lookup_ge_None_2|].
  destruct (assign_replicates_run suffix_a suffix_b h r df groups Hr)
    as (tmp & Heq).
  rewrite Hrun in Heq.
  destruct (assign_replicates_frame suffix_a suffix_b df groups) as [out|e];
    [|done].
  injection Heq as -> ->. exists out.
  by rewrite (assoc_L (++)), lookup_snoc_new.
Qed.

(** C9: with an empty list of grouping fields the loop builds no frame
    and the concatenation of zero frames raises ValueError: whatever the
    table, the call raises, returns no table (not even the input one), and
    leaves the store as it was. *)
Theorem empty_groups_raise (suffix_a suffix_b : string) (h : list DataFrame)
    (r : ref) :
  assign_replicates suffix_a suffix_b r [] h = (Err ValueError, h) /\
  raises suffix_a suffix_b h r [] ValueError /\
  (forall out, ~ returns suffix_a suffix_b h r [] out).
Proof.
  assert (assign_replicates suffix_a suffix_b r [] h = (Err ValueError, h))
    as Hrun.
  { unfold assign_replicates. cbn [for_each].
    unfold bind, ret, lift. cbn [concat_columns]. reflexivity. }
  split; [done|]. split.
  - by exists h.
  - intros out (r' & h' & Hret & _). rewrite Hrun in Hret. discriminate Hret.
Qed.

(** *** Tables with distinct column names *)

Lemma select_NoDup (n : string) (cols : list (string * list value)) :
  NoDup cols.*1 ->
  select n cols
  = match get_column n cols with
    | Some s => [(n, s)]
    | None => []
    end.
Proof.
  induction cols as [|c cols IH]; [done|].
  rewrite fmap_cons, NoDup_cons. intros [Hc Hnd].
  unfold get_column. rewrite (select_cons n c cols).
  unfold select at 1 3. destruct (decide (c.1 = n)) as [<-|Hne].
  - rewrite !filter_cons_True by done. rewrite filter_nil. cbn.
    rewrite select_other by done. by destruct c.
  - rewrite !filter_cons_False by done. rewrite filter_nil. cbn [app].
    fold (get_column n cols). by apply IH.
Qed.

Lemma has_column_get (n : string) (df : DataFrame) :
  has_column n df = true ->
  exists s, get_column n (df_columns df) = Some s /\ (n, s) ∈ df_columns df.
Proof.
  intros H%has_column_true. unfold get_column.
  destruct (select n (df_columns df)) as [|c l] eqn:E.
  { by apply select_nil_iff in E. }
  exists c.2. split; [done|].
  assert (c ∈ select n (df_columns df)) as [Hc Hn]%elem_of_select
    by (rewrite E; left).
  destruct c; cbn in *; by subst.
Qed.

Lemma eq_mask_NoDup (suffix_a suffix_b : string) (df : DataFrame)
    (f : string) (A B : list value) :
  NoDup (column_names df) ->
  get_column (f +:+ suffix_a) (df_columns df) = Some A ->
  get_column (f +:+ suffix_b) (df_columns df) = Some B ->
  eq_mask suffix_a suffix_b df f = series_eq A B.
Proof.
  intros Hnd HA HB. unfold eq_mask, side_columns. cbn [flat_map].
  rewrite !select_NoDup by done. by rewrite HA, HB.
Qed.

Lemma value_eqb_eq (x y : value) :
  metadata_value x -> metadata_value y -> value_eqb x y = true <-> x = y.
Proof.
  destruct x, y; cbn; try done; intros _ _;
    rewrite bool_decide_eq_true; split; congruence.
Qed.

Lemma value_eqb_sym (x y : value) : value_eqb x y = value_eqb y x.
Proof.
  destruct x, y; cbn; try done; apply bool_decide_ext; split; congruence.
Qed.

Lemma series_eq_sym (A B : list value) : series_eq A B = series_eq B A.
Proof.
  unfold series_eq. revert B. induction A as [|a A IH]; intros [|b B]; cbn;
    try done. by rewrite value_eqb_sym, IH.
Qed.

(** C4, amended: for a well-formed table with at least one row on the
    default row index, with distinct column names to which the derived
    names are new and all required columns present, and for every listed
    grouping field [f] other than one called group, the call returns a
    table in which the cell of [f_replicate] is, at every row, the boolean
    result of comparing the two suffixed values of [f] with [==]: true
    exactly at the rows where they are equal, false at all others, and on
    metadata values [==] is plain equality. *)
Theorem replicate_flag_is_equality (suffix_a suffix_b : string)
    (h : list DataFrame) (r : ref) (df : DataFrame)
    (groups : list string) (f : string) :
  suffixes_ok suffix_a suffix_b ->
  h !! r = Some df ->
  well_formed df ->
  df_index df = RangeIndex (nrows df) ->
  nrows df <> 0 ->
  NoDup (column_names df) ->
  fresh_names df groups ->
  columns_present suffix_a suffix_b df groups ->
  f ∈ groups ->
  f <> "group" ->
  exists out,
    returns suffix_a suffix_b h r groups out /\
    forall i, i < nrows df ->
      exists x y,
        cell df (f +:+ suffix_a) i = Some x /\
        cell df (f +:+ suffix_b) i = Some y /\
        cell out (replicate_name f) i = Some (VBool (value_eqb x y)) /\
        (metadata_value x -> metadata_value y ->
         (cell out (replicate_name f) i = Some (VBool true) <-> x = y)).
Proof.
  intros Hrep Hr Hwf Hidx Hrows Hnd Hfresh Hcols Hf Hng.
  assert (groups <> []) as Hne by (intros ->; by apply elem_of_nil in Hf).
  eexists. split.
  { apply (returns_frame suffix_a suffix_b h r df); [done|].
    by apply default_index_frame. }
  intros i Hi.
  destruct (columns_present_has _ _ _ _ Hcols f Hf) as [Ha Hb].
  destruct (has_column_get _ _ Ha) as (A & HA & HAin).
  destruct (has_column_get _ _ Hb) as (B & HB & HBin).
  pose proof Hwf as Hwf'. unfold well_formed in Hwf'.
  rewrite Forall_forall in Hwf'.
  pose proof (Hwf' _ HAin) as HlenA. pose proof (Hwf' _ HBin) as HlenB.
  cbn [snd] in HlenA, HlenB.
  destruct (lookup_lt_is_Some_2 A i) as [x Hx]; [lia|].
  destruct (lookup_lt_is_Some_2 B i) as [y Hy]; [lia|].
  exists x, y.
  assert (cell (merge_on_index df
                  (mkDataFrame (RangeIndex (nrows df))
                     (derived_columns suffix_a suffix_b df groups)))
            (replicate_name f) i = Some (VBool (value_eqb x y))) as Hcell.
  { rewrite (merge_default_index_fresh df); try done.
    2:{ by apply derived_no_overlap. }
    2:{ apply derived_columns_length. }
    unfold cell. cbn [df_columns].
    rewrite get_column_app, get_column_other by (by apply Hfresh).
    rewrite get_column_derived by done. rewrite decide_False by done. cbn.
    rewrite flags_of_default by done.
    rewrite (eq_mask_NoDup _ _ _ _ A B) by done.
    rewrite list_lookup_fmap. unfold series_eq.
    rewrite lookup_zip_with, Hx, Hy. done. }
  repeat split; try done.
  - unfold cell. rewrite HA. done.
  - unfold cell. rewrite HB. done.
  - rewrite Hcell. intros [= E]. by apply value_eqb_eq.
  - rewrite Hcell. intros E. do 2 f_equal. by apply value_eqb_eq.
Qed.

(** *** Swapping the two sides of a field *)

Lemma get_column_merge_right (l r : DataFrame) (n : string) :
  (forall x, x ∈ column_names r -> x ∉ column_names l) ->
  n ∉ column_names l ->
  get_column n (df_columns (merge_on_index l r))
  = take_rows (join_pairs (df_index l) (df_index r)).*2
      <$> get_column n (df_columns r).
Proof.
  intros Hov Hn. rewrite merge_no_overlap by done. cbn zeta.
  cbn [df_columns]. rewrite get_column_app, get_column_other.
  2:{ rewrite <- list_fmap_compose. exact Hn. }
  apply get_column_map.
Qed.

Section Swap.

Variables suffix_a suffix_b : string.

Hypothesis Hrep : suffixes_ok suffix_a suffix_b.

Hypothesis Hsides : sides_distinct suffix_a suffix_b.

Variable f : string.

Variable df : DataFrame.

Hypothesis Hnd : NoDup (column_names df).

Lemma swap_column_names :
  column_names (swap_sides suffix_a suffix_b f df) = column_names df.
Proof.
  unfold column_names, swap_sides. cbn [df_columns].
  rewrite <- list_fmap_compose. apply list_fmap_ext. intros i c _. cbn.
  by repeat destruct (decide _).
Qed.

Lemma swap_has_column (n : string) :
  has_column n (swap_sides suffix_a suffix_b f df) = has_column n df.
Proof. unfold has_column. by rewrite swap_column_names. Qed.

Lemma get_column_map_named (n : string)
    (G : string * list value -> string * list value)
    (cols : list (string * list value)) :
  (forall c, (G c).1 = c.1) ->
  get_column n (map G cols)
  = (fun c => (G c).2) <$> head (select n cols).
Proof.
  intros HG. unfold get_column, select.
  induction cols as [|c cols IH]; [done|]. cbn [map].
  destruct (decide (c.1 = n)) as [E|E].
  - rewrite !filter_cons_True by (by rewrite ?HG). done.
  - rewrite !filter_cons_False by (by rewrite ?HG). done.
Qed.

Lemma get_column_swap (n : string) :
  get_column n (df_columns (swap_sides suffix_a suffix_b f df))
  = match get_column n (df_columns df) with
    | Some s =>
        if decide (n = f +:+ suffix_a)
        then Some (default s (get_column (f +:+ suffix_b) (df_columns df)))
        else if decide (n = f +:+ suffix_b)
        then Some (default s (get_column (f +:+ suffix_a) (df_columns df)))
        else Some s
    | None => None
    end.
Proof.
  unfold swap_sides. cbn [df_columns]. rewrite get_column_map_named.
  2:{ intros c. by repeat destruct (decide _). }
  unfold get_column.
  destruct (select n (df_columns df)) as [|c l] eqn:E; [done|]. cbn.
  assert (c ∈ select n (df_columns df)) as [_ Hn]%elem_of_select
    by (rewrite E; left).
  rewrite Hn. by repeat destruct (decide _).
Qed.

Lemma eq_mask_by_name (d : DataFrame) (g : string) :
  NoDup (column_names d) ->
  eq_mask suffix_a suffix_b d g
  = match get_column (g +:+ suffix_a) (df_columns d),
          get_column (g +:+ suffix_b) (df_columns d) with
    | Some A, Some B => series_eq A B
    | _, _ => []
    end.
Proof.
  intros Hd. unfold eq_mask, side_columns. cbn [flat_map].
  rewrite !select_NoDup by done.
  by destruct (get_column (g +:+ suffix_a) (df_columns d)),
              (get_column (g +:+ suffix_b) (df_columns d)).
Qed.

Lemma swap_eq_mask (g : string) :
  eq_mask suffix_a suffix_b (swap_sides suffix_a suffix_b f df) g
  = eq_mask suffix_a suffix_b df g.
Proof.
  assert (forall x y : string, x +:+ suffix_b <> y +:+ suffix_a) as Hsides'.
  { intros x y E. symmetry in E. by apply Hsides in E. }
  rewrite !eq_mask_by_name by (by rewrite ?swap_column_names).
  rewrite !get_column_swap.
  destruct (get_column (g +:+ suffix_a) (df_columns df)) as [A|] eqn:EA,
           (get_column (g +:+ suffix_b) (df_columns df)) as [B|] eqn:EB;
    try done.
  - destruct (decide (g +:+ suffix_a = f +:+ suffix_a)) as [E|E].
    + apply append_inj_l in E as ->. rewrite EA, EB. cbn.
      rewrite decide_False by apply Hsides'.
      rewrite decide_True by done. apply series_eq_sym.
    + rewrite (decide_False (P := g +:+ suffix_a = f +:+ suffix_b))
        by apply Hsides.
      rewrite (decide_False (P := g +:+ suffix_b = f +:+ suffix_a))
        by apply Hsides'.
      rewrite decide_False; [done|].
      intros ->%append_inj_l. by destruct E.
  - by repeat destruct (decide _).
Qed.

Lemma swap_flags_of (g : string) :
  flags_of suffix_a suffix_b (swap_sides suffix_a suffix_b f df) g
  = flags_of suffix_a suffix_b df g.
Proof. unfold flags_of, flag_rows. by rewrite swap_eq_mask. Qed.

Lemma swap_field_check (g : string) :
  field_check suffix_a suffix_b (swap_sides suffix_a suffix_b f df) g
  = field_check suffix_a suffix_b df g.
Proof.
  unfold field_check, flag_rows. by rewrite !swap_has_column, swap_eq_mask.
Qed.

Lemma swap_derived_columns (groups : list string) :
  derived_columns suffix_a suffix_b (swap_sides suffix_a suffix_b f df) groups
  = derived_columns suffix_a suffix_b df groups.
Proof.
  unfold derived_columns.
  change (nrows (swap_sides suffix_a suffix_b f df)) with (nrows df).
  assert (flag_columns suffix_a suffix_b (swap_sides suffix_a suffix_b f df)
            groups
          = flag_columns suffix_a suffix_b df groups) as ->.
  { unfold flag_columns. apply map_ext. intros g. by rewrite swap_flags_of. }
  assert (group_flags suffix_a suffix_b (swap_sides suffix_a suffix_b f df)
            groups
          = group_flags suffix_a suffix_b df groups) as ->; [|done].
  unfold group_flags.
  change (nrows (swap_sides suffix_a suffix_b f df)) with (nrows df).
  apply map_ext. intros i. apply forallb_ext_elem. intros g _.
  by rewrite swap_flags_of.
Qed.

End Swap.

Lemma rmapM_ext {A B : Type} (f g : A -> result B) (l : list A) :
  (forall x, f x = g x) -> rmapM f l = rmapM g l.
Proof.
  intros H. induction l as [|a l IH]; [done|]. cbn [rmapM].
  by rewrite H, IH.
Qed.

(** C8: exchanging, in every row, the values of the first-side and the
    second-side column of a listed field [f] does not change the derived
    [f_replicate] column: the call on the swapped table returns as well,
    and the two results carry the same [f_replicate] column.  Column names
    are distinct, so that the two side columns are determined, and the
    derived names are new to the table. *)
Theorem swap_keeps_replicate_flag (suffix_a suffix_b : string)
    (h1 h2 : list DataFrame) (r1 r2 : ref) (df out : DataFrame)
    (groups : list string) (f : string) :
  suffixes_ok suffix_a suffix_b ->
  sides_distinct suffix_a suffix_b ->
  NoDup (column_names df) ->
  fresh_names df groups ->
  f ∈ groups ->
  h1 !! r1 = Some df ->
  h2 !! r2 = Some (swap_sides suffix_a suffix_b f df) ->
  returns suffix_a suffix_b h1 r1 groups out ->
  exists out' col,
    returns suffix_a suffix_b h2 r2 groups out' /\
    get_column (replicate_name f) (df_columns out') = Some col /\
    get_column (replicate_name f) (df_columns out) = Some col.
Proof.
  intros Hrep Hsides Hnd Hfresh Hf Hr1 Hr2 Hret.
  apply (returns_frame suffix_a suffix_b h1 r1 df) in Hret; [|done].
  apply frame_ok in Hret as (Hne & [u Hu] & ->); [|done].
  set (sw := swap_sides suffix_a suffix_b f df).
  set (k := mkDataFrame (RangeIndex (nrows df))
              (derived_columns suffix_a suffix_b df groups)).
  assert (assign_replicates_frame suffix_a suffix_b sw groups
          = Ok (merge_on_index sw k)) as Hsw.
  { rewrite (frame_of_checks suffix_a suffix_b Hrep sw groups u); try done.
    - unfold sw. rewrite swap_derived_columns by done. done.
    - rewrite <- Hu. apply rmapM_ext. intros g.
      by apply swap_field_check. }
  assert (fresh_names sw groups) as Hfresh'.
  { unfold fresh_names, sw. by rewrite swap_column_names. }
  exists (merge_on_index sw k).
  eexists. split; [|split].
  - by apply (returns_frame suffix_a suffix_b h2 r2 sw).
  - rewrite get_column_merge_right.
    + cbn [df_columns df_index k]. rewrite get_column_derived by done.
      cbn. reflexivity.
    + intros x Hx. unfold sw. rewrite swap_column_names.
      by apply (derived_no_overlap suffix_a suffix_b df groups).
    + by apply Hfresh'.
  - rewrite get_column_merge_right.
    + cbn [df_columns df_index k]. rewrite get_column_derived by done.
      cbn. reflexivity.
    + by apply derived_no_overlap.
    + by apply Hfresh.
Qed.

(** ** Properties of compare_distributions *)

Section Comparator.

Local Open Scope R_scope.

(** The sets of supported names, defined outside the module. *)
Variables available_methods available_summary_methods : list string.















(** C6: a call whose method, or whose summary method, is not in its set of
    supported names fails with UnsupportedMethodError, whatever the two
    samples are (also where standardization itself would fail): the names
    are checked first, and each of the two on its own suffices. *)
Theorem unsupported_method_raises (target control : list R)
    (method summary : string) :
  method ∉ available_methods \/ summary ∉ available_summary_methods ->
  compare_distributions available_methods available_summary_methods
    target control method summary
  = Err UnsupportedMethodError.
Proof.
  intros H. unfold compare_distributions.
  unfold check_compare_distribution_method, check_replicate_summary_method.
  destruct (decide (method ∈ available_methods)) as [Hm|Hm].
  - rewrite (bool_decide_eq_true_2 _ Hm). cbn [rbind].
    destruct H as [H|H]; [done|]. by rewrite (bool_decide_eq_false_2 _ H).
  - by rewrite (bool_decide_eq_false_2 _ Hm).
Qed.

(** C10: a supported method other than zscore leaves the result variable
    unassigned, and the call fails instead of returning a number: with
    UnboundLocalError once the summary method has passed its check.  With
    method zscore, a supported summary method other than mean and median
    applies no reduction, and the call returns the whole array of
    standardized scores of the target. *)
Theorem dispatch_gaps (target control : list R) (method summary : string) :
  (method ∈ available_methods -> method <> "zscore" ->
   compare_distributions available_methods available_summary_methods
     target control method summary
   = Err (if bool_decide (summary ∈ available_summary_methods)
          then UnboundLocalError else UnsupportedMethodError)) /\
  ("zscore" ∈ available_methods ->
   summary ∈ available_summary_methods ->
   summary <> "mean" -> summary <> "median" ->
   control <> [] -> target <> [] ->
   compare_distributions available_methods available_summary_methods
     target control "zscore" summary
   = Ok (Array
           (map (fun t => (t - np_mean control)
                          / handle_zeros_in_scale (sqrt (np_var control)))
              target))).
Proof.
  unfold compare_distributions.
  unfold check_compare_distribution_method, check_replicate_summary_method.
  split.
  - intros Hm Hz. rewrite (bool_decide_eq_true_2 _ Hm). cbn [rbind].
    destruct (bool_decide (summary ∈ available_summary_methods)); [|done].
    cbn [rbind]. by rewrite (bool_decide_eq_false_2 _ Hz).
  - intros Hm Hs Hmean Hmedian Hc Ht.
    rewrite (bool_decide_eq_true_2 _ Hm), (bool_decide_eq_true_2 _ Hs).
    cbn [rbind].
    rewrite (bool_decide_eq_true_2 ("zscore" = "zscore")) by done.
    destruct control as [|c control]; [done|].
    destruct target as [|t target]; [done|].
    cbn [fit transform rbind mean_ scale_].
    rewrite (bool_decide_eq_false_2 _ Hmean).
    by rewrite (bool_decide_eq_false_2 _ Hmedian).
Qed.

End Comparator.

(** ** Examples, witnesses and counterexamples *)

Lemma fresh_names_by_check (df : DataFrame) (groups : list string) :
  forallb (fun n => negb (has_column n df))
    ("group_replicate" :: map replicate_name groups) = true ->
  fresh_names df groups.
Proof.
  rewrite forallb_forall. intros H. split.
  - apply has_column_false, negb_true_iff, H. left. done.
  - intros g Hg. apply has_column_false, negb_true_iff, H. right.
    apply in_map. by apply list_elem_of_In.
Qed.

Lemma columns_present_by_check (suffix_a suffix_b : string) (df : DataFrame)
    (groups : list string) :
  forallb (fun g => has_column (g +:+ suffix_a) df
                    && has_column (g +:+ suffix_b) df) groups = true ->
  columns_present suffix_a suffix_b df groups.
Proof.
  rewrite forallb_forall. intros H g Hg%list_elem_of_In.
  apply H, andb_true_iff in Hg as [Ha Hb]. by rewrite <- !has_column_true.
Qed.

Lemma well_formed_by_check (df : DataFrame) :
  forallb (fun c : string * list value => length c.2 =? nrows df)%nat
    (df_columns df) = true ->
  well_formed df.
Proof.
  rewrite forallb_forall. intros H. apply Forall_forall.
  intros c Hc%list_elem_of_In. by apply Nat.eqb_eq, H.
Qed.

Lemma example_returns :
  returns "_pair_a" "_pair_b" [example_table] 0 ["a"; "b"] example_result.
Proof. eexists _, _. split; [vm_compute; reflexivity|reflexivity]. Qed.

Lemma group_replicate_is_conjunction_witness :
  (forall g, g ∈ ["a"; "b"] ->
     exists b, cell example_result (replicate_name g) 1 = Some (VBool b)) /\
  cell example_result "group_replicate" 1
  = Some (VBool
            (forallb
               (fun g =>
                  bool_decide
                    (cell example_result (replicate_name g) 1
                     = Some (VBool true)))
               ["a"; "b"])).
Proof.
  apply (group_replicate_is_conjunction "_pair_a" "_pair_b"
           [example_table] 0 example_table example_result ["a"; "b"]).
  - exact pair_suffixes_ok.
  - reflexivity.
  - apply fresh_names_by_check. vm_compute. reflexivity.
  - exact example_returns.
  - vm_compute. lia.
Defined.

Lemma rows_preserved_on_default_index_witness :
  exists out,
    returns "_pair_a" "_pair_b" [example_table] 0 ["a"; "b"] out /\
    df_index out = df_index example_table /\
    nrows out = nrows example_table /\
    (exists extra,
        (df_columns out).*2 = (df_columns example_table).*2 ++ extra) /\
    (fresh_names example_table ["a"; "b"] ->
     exists extra, df_columns out = df_columns example_table ++ extra).
Proof.
  apply (rows_preserved_on_default_index "_pair_a" "_pair_b"
           [example_table] 0 example_table ["a"; "b"]).
  - exact pair_suffixes_ok.
  - reflexivity.
  - apply well_formed_by_check. vm_compute. reflexivity.
  - reflexivity.
  - vm_compute. lia.
  - discriminate.
  - apply columns_present_by_check. vm_compute. reflexivity.
Defined.

(** C2 as stated fails: on a table that is not on the default row index
    the returned table can lose rows; here it has none of the two. *)
Lemma rows_lost_on_other_index :
  well_formed relabelled_table /\
  columns_present "_pair_a" "_pair_b" relabelled_table ["a"] /\
  nrows relabelled_table = 2 /\
  exists out,
    returns "_pair_a" "_pair_b" [relabelled_table] 0 ["a"] out /\
    nrows out = 0.
Proof.
  split; [apply well_formed_by_check; vm_compute; reflexivity|].
  split; [apply columns_present_by_check; vm_compute; reflexivity|].
  split; [reflexivity|].
  eexists. split.
  - eexists _, _. split; [vm_compute; reflexivity|reflexivity].
  - reflexivity.
Qed.

Lemma missing_column_raises_witness :
  exists e h',
    assign_replicates "_pair_a" "_pair_b" 0 ["a"; "c"] [example_table]
    = (Err e, h') /\
    (e = AssertionError not_found_msg \/ e = KeyError \/ e = ValueError) /\
    [example_table] `prefix_of` h' /\ h' !! 0 = Some example_table /\
    (well_formed example_table ->
     df_index example_table = RangeIndex (nrows example_table) ->
     nrows example_table <> 0 ->
     e = AssertionError not_found_msg) /\
    (nrows example_table = 0 -> e <> KeyError).
Proof.
  apply (missing_column_raises "_pair_a" "_pair_b" [example_table] 0
           example_table ["a"; "c"] "c").
  - exact pair_suffixes_ok.
  - reflexivity.
  - right. left.
  - left. apply has_column_false. vm_compute. reflexivity.
Defined.

(** C3 as stated fails: the call still raises, but on a table that is not
    on the default row index the exception need not be the failed
    assertion; here the iteration of field a raises KeyError before the
    columns of field b are looked for. *)
Lemma missing_column_other_exception :
  ("b" ∈ ["a"; "b"]) /\
  ("b_pair_a" ∉ column_names one_row_table) /\
  raises "_pair_a" "_pair_b" [one_row_table] 0 ["a"; "b"] KeyError /\
  ~ raises "_pair_a" "_pair_b" [one_row_table] 0 ["a"; "b"]
      (AssertionError not_found_msg).
Proof.
  split; [right; left|].
  split; [apply has_column_false; vm_compute; reflexivity|].
  split.
  - eexists. vm_compute. reflexivity.
  - intros [h' H]. vm_compute in H. discriminate H.
Qed.

Lemma replicate_flag_is_equality_witness :
  exists out,
    returns "_pair_a" "_pair_b" [example_table] 0 ["a"; "b"] out /\
    forall i, i < nrows example_table ->
      exists x y,
        cell example_table ("a" +:+ "_pair_a") i = Some x /\
        cell example_table ("a" +:+ "_pair_b") i = Some y /\
        cell out (replicate_name "a") i = Some (VBool (value_eqb x y)) /\
        (metadata_value x -> metadata_value y ->
         (cell out (replicate_name "a") i = Some (VBool true) <-> x = y)).
Proof.
  apply (replicate_flag_is_equality "_pair_a" "_pair_b" [example_table] 0
           example_table ["a"; "b"] "a").
  - exact pair_suffixes_ok.
  - reflexivity.
  - apply well_formed_by_check. vm_compute. reflexivity.
  - reflexivity.
  - vm_compute. lia.
  - apply (bool_decide_eq_true_1 (NoDup (column_names example_table))).
    vm_compute. reflexivity.
  - apply fresh_names_by_check. vm_compute. reflexivity.
  - apply columns_present_by_check. vm_compute. reflexivity.
  - left.
  - discriminate.
Defined.

(** C4 as stated fails twice.  On a table that is not on the default row
    index the flags land on other rows: for [rotated_table] the first row of
    the returned table has equal sides of field a and a false flag.  And
    the replicate column of a field called group is the group column: for
    [group_field_table] the sides of field group are equal, yet its column
    is false because field b does not match. *)
Lemma replicate_flag_wrong :
  (exists out,
      returns "_pair_a" "_pair_b" [rotated_table] 0 ["a"] out /\
      cell rotated_table "a_pair_a" 0 = Some (VStr "x") /\
      cell rotated_table "a_pair_b" 0 = Some (VStr "x") /\
      cell out "a_pair_a" 0 = Some (VStr "x") /\
      cell out "a_pair_b" 0 = Some (VStr "x") /\
      cell out (replicate_name "a") 0 = Some (VBool false)) /\
  (exists out,
      returns "_pair_a" "_pair_b" [group_field_table] 0 ["group"; "b"] out /\
      cell group_field_table "group_pair_a" 0 = Some (VStr "p") /\
      cell group_field_table "group_pair_b" 0 = Some (VStr "p") /\
      cell out "group_pair_a" 0 = Some (VStr "p") /\
      cell out "group_pair_b" 0 = Some (VStr "p") /\
      cell out (replicate_name "group") 0 = Some (VBool false)).
Proof.
  split.
  - eexists. split.
    + eexists _, _. split; [vm_compute; reflexivity|reflexivity].
    + repeat split; reflexivity.
  - eexists. split.
    + eexists _, _. split; [vm_compute; reflexivity|reflexivity].
    + repeat split; reflexivity.
Qed.

Lemma input_not_mutated_witness :
  (assign_replicates "_pair_a" "_pair_b" 0 ["a"; "b"] [example_table]).2 !! 0
  = Some example_table /\
  [example_table]
    `prefix_of`
    (assign_replicates "_pair_a" "_pair_b" 0 ["a"; "b"] [example_table]).2 /\
  (forall r',
      (assign_replicates "_pair_a" "_pair_b" 0 ["a"; "b"] [example_table]).1
      = Ok r' ->
      r' <> 0 /\ [example_table] !! r' = None /\
      is_Some
        ((assign_replicates "_pair_a" "_pair_b" 0 ["a"; "b"]
            [example_table]).2 !! r')).
Proof.
  apply (input_not_mutated "_pair_a" "_pair_b" [example_table] 0
           example_table ["a"; "b"]).
  - reflexivity.
  - vm_compute. reflexivity.
Defined.

Lemma swap_keeps_replicate_flag_witness :
  exists out' col,
    returns "_pair_a" "_pair_b"
      [swap_sides "_pair_a" "_pair_b" "a" example_table] 0 ["a"; "b"] out' /\
    get_column (replicate_name "a") (df_columns out') = Some col /\
    get_column (replicate_name "a") (df_columns example_result) = Some col.
Proof.
  apply (swap_keeps_replicate_flag "_pair_a" "_pair_b" [example_table]
           [swap_sides "_pair_a" "_pair_b" "a" example_table] 0 0
           example_table example_result ["a"; "b"] "a").
  - exact pair_suffixes_ok.
  - exact pair_sides_distinct.
  - apply (bool_decide_eq_true_1 (NoDup (column_names example_table))).
    vm_compute. reflexivity.
  - apply fresh_names_by_check. vm_compute. reflexivity.
  - left.
  - reflexivity.
  - reflexivity.
  - exact example_returns.
Defined.



Lemma unsupported_method_raises_witness :
  compare_distributions ["zscore"] ["mean"; "median"] [3%R] [1%R; 2%R]
    "bogus" "mean"
  = Err UnsupportedMethodError /\
  compare_distributions ["zscore"] ["mean"; "median"] [3%R] [1%R; 2%R]
    "zscore" "bogus"
  = Err UnsupportedMethodError.
Proof.
  split.
  - apply (unsupported_method_raises ["zscore"] ["mean"; "median"]).
    left. apply (bool_decide_eq_false_1 ("bogus" ∈ ["zscore"])).
    vm_compute. reflexivity.
  - apply (unsupported_method_raises ["zscore"] ["mean"; "median"]).
    right. apply (bool_decide_eq_false_1 ("bogus" ∈ ["mean"; "median"])).
    vm_compute. reflexivity.
Defined.

Lemma dispatch_gaps_witness :
  compare_distributions ["zscore"; "rank"] ["mean"; "median"; "max"]
    [3%R] [1%R; 2%R] "rank" "max"
  = Err UnboundLocalError /\
  compare_distributions ["zscore"; "rank"] ["mean"; "median"; "max"]
    [3%R] [1%R; 2%R] "zscore" "max"
  = Ok (Array
          (map (fun t => ((t - np_mean [1%R; 2%R])
                          / handle_zeros_in_scale
                              (sqrt (np_var [1%R; 2%R])))%R)
             [3%R])).
Proof.
  destruct (dispatch_gaps ["zscore"; "rank"] ["mean"; "median"; "max"]
              [3%R] [1%R; 2%R] "rank" "max") as [Hunbound Harray].
  split.
  - apply Hunbound; [right; left|discriminate].
  - apply Harray; [left|right; right; left|discriminate..].
Defined.

(** * Further properties *)

(** ** assign_replicates: when it returns, and what it appends *)

Lemma checks_ok_each_check (suffix_a suffix_b : string) (df : DataFrame)
    (groups : list string) (u : list unit) :
  rmapM (field_check suffix_a suffix_b df) groups = Ok u ->
  forall g, g ∈ groups -> field_check suffix_a suffix_b df g = Ok tt.
Proof.
  revert u. induction groups as [|f groups IH]; intros u Hu g Hg.
  { by apply elem_of_nil in Hg. }
  cbn [rmapM] in Hu.
  destruct (field_check suffix_a suffix_b df f) as [[]|e] eqn:Ef; [|done].
  cbn [rbind] in Hu.
  destruct (rmapM _ groups) as [vs|e] eqn:Egs; [|done].
  apply elem_of_cons in Hg as [->|Hg]; [done|]. by eapply IH.
Qed.

Lemma checks_ok_of_each (suffix_a suffix_b : string) (df : DataFrame)
    (groups : list string) :
  (forall g, g ∈ groups -> field_check suffix_a suffix_b df g = Ok tt) ->
  rmapM (field_check suffix_a suffix_b df) groups
  = Ok (map (fun _ => tt) groups).
Proof.
  intros H. apply rmapM_ok. apply Forall_forall. intros g Hg. by apply H.
Qed.

Lemma field_check_ok_rows (suffix_a suffix_b : string) (df : DataFrame)
    (f : string) (u : unit) :
  field_check suffix_a suffix_b df f = Ok u -> nrows df <> 0.
Proof.
  unfold field_check. intros H Hrows.
  rewrite (bool_decide_eq_true_2 _ Hrows) in H. by destruct (_ && _).
Qed.

(** X1: on a well-formed table on the default row index, a call returns a
    table exactly when the list of grouping fields is not empty, both
    suffixed columns of every listed field are in the table, and the table
    has at least one row; in every other case it raises. *)
Theorem returns_iff_columns_present (suffix_a suffix_b : string)
    (h : list DataFrame) (r : ref) (df : DataFrame) (groups : list string) :
  suffixes_ok suffix_a suffix_b ->
  h !! r = Some df ->
  well_formed df ->
  df_index df = RangeIndex (nrows df) ->
  (exists out, returns suffix_a suffix_b h r groups out)
  <-> groups <> [] /\ columns_present suffix_a suffix_b df groups /\
      nrows df <> 0.
Proof.
  intros Hrep Hr Hwf Hidx. split.
  - intros [out Hret].
    apply (returns_frame suffix_a suffix_b h r df) in Hret; [|done].
    apply frame_ok in Hret as (Hne & [u Hu] & _); [|done].
    split; [done|]. split.
    + intros g Hg.
      destruct (checks_ok_each _ _ _ _ _ Hu g Hg) as [Ha Hb].
      by rewrite <- !has_column_true.
    + destruct groups as [|g groups]; [done|].
      apply (field_check_ok_rows suffix_a suffix_b df g tt).
      eapply checks_ok_each_check; [done|left].
  - intros (Hne & Hcols & Hrows). eexists.
    apply (returns_frame suffix_a suffix_b h r df); [done|].
    by apply default_index_frame.
Qed.

Lemma first_occurrences_NoDup (keys : list string) :
  NoDup keys -> first_occurrences keys = keys.
Proof.
  unfold first_occurrences.
  enough (forall acc,
    NoDup (acc ++ keys) ->
    fold_left (fun acc k => if bool_decide (k ∈ acc) then acc
                            else acc ++ [k]) keys acc = acc ++ keys) as H.
  { intros Hnd. by apply (H []). }
  induction keys as [|k keys IH]; intros acc Hnd; cbn [fold_left].
  { by rewrite app_nil_r. }
  assert (k ∉ acc) as Hk.
  { apply NoDup_app in Hnd as (_ & Hd & _). intros Hin.
    apply (Hd k Hin). left. }
  rewrite bool_decide_eq_false_2 by done.
  rewrite IH; rewrite <- (assoc_L (++)); done.
Qed.

Lemma select_NoDup_elem (cols : list (string * list value))
    (c : string * list value) :
  NoDup cols.*1 -> c ∈ cols -> select c.1 cols = [c].
Proof.
  induction cols as [|a cols IH]; intros Hnd Hc.
  { by apply elem_of_nil in Hc. }
  rewrite fmap_cons in Hnd. apply NoDup_cons in Hnd as [Ha Hnd].
  rewrite select_cons. apply elem_of_cons in Hc as [->|Hc].
  - rewrite (select_other a.1 cols) by done. unfold select.
    by rewrite filter_cons_True, filter_nil by done.
  - rewrite IH by done. unfold select. rewrite filter_cons_False; [done|].
    intros E. apply Ha. rewrite E. apply list_elem_of_fmap. by exists c.
Qed.

Lemma flat_select_all (cols : list (string * list value)) :
  NoDup cols.*1 -> flat_map (fun n => select n cols) cols.*1 = cols.
Proof.
  intros Hnd.
  enough (forall l, (forall c, c ∈ l -> c ∈ cols) ->
            flat_map (fun n => select n cols) l.*1 = l) as H by by apply H.
  induction l as [|c l IH]; intros Hl; [done|].
  rewrite fmap_cons. cbn [flat_map].
  rewrite select_NoDup_elem by (done || apply Hl; left).
  rewrite IH; [done|]. intros c' Hc'. apply Hl. by right.
Qed.

(** Without repeated fields and without a field called group, the derived
    frame is the flag columns in list order followed by the group column. *)
Lemma derived_columns_distinct (suffix_a suffix_b : string) (df : DataFrame)
    (groups : list string) :
  NoDup groups ->
  "group" ∉ groups ->
  derived_columns suffix_a suffix_b df groups
  = flag_columns suffix_a suffix_b df groups
    ++ [("group_replicate",
         VBool <$> group_flags suffix_a suffix_b df groups)].
Proof.
  intros Hnd Hg. unfold derived_columns.
  rewrite dict_values_comprehension, first_occurrences_NoDup by done.
  assert ((flag_columns suffix_a suffix_b df groups).*1
          = replicate_name <$> groups) as Hnames.
  { unfold flag_columns. rewrite <- list_fmap_compose. done. }
  assert ("group_replicate" ∉ replicate_name <$> groups) as Hgr.
  { intros (g & E & Hin)%list_elem_of_fmap.
    change "group_replicate" with (replicate_name "group") in E.
    apply replicate_name_inj in E. by subst g. }
  unfold assign, has_column, column_names. cbn [df_columns df_index].
  rewrite Hnames, bool_decide_eq_false_2 by done.
  set (cols := flag_columns suffix_a suffix_b df groups
               ++ [("group_replicate",
                    VBool <$> group_flags suffix_a suffix_b df groups)]).
  assert (cols.*1 = (replicate_name <$> groups) ++ ["group_replicate"]) as E.
  { unfold cols. by rewrite fmap_app, Hnames. }
  rewrite <- E. apply flat_select_all. rewrite E.
  apply NoDup_app. split; [|split].
  - apply NoDup_fmap_2; [|done]. intros x y. apply replicate_name_inj.
  - intros n Hn Hn'. apply list_elem_of_singleton in Hn'. by subst n.
  - apply NoDup_singleton.
Qed.

(** X2: for a well-formed table with at least one row on the default row
    index, with the derived names new to it, and a non-empty list of
    distinct grouping fields none of which is called group, the returned
    table has the columns of the input followed by one replicate column per
    listed field, in the order of the list, and the group column last; the
    suffixed columns that were compared are not repeated. *)
Theorem appended_column_names (suffix_a suffix_b : string)
    (h : list DataFrame) (r : ref) (df : DataFrame) (groups : list string) :
  suffixes_ok suffix_a suffix_b ->
  h !! r = Some df ->
  well_formed df ->
  df_index df = RangeIndex (nrows df) ->
  nrows df <> 0 ->
  fresh_names df groups ->
  columns_present suffix_a suffix_b df groups ->
  groups <> [] ->
  NoDup groups ->
  "group" ∉ groups ->
  exists out,
    returns suffix_a suffix_b h r groups out /\
    column_names out
    = column_names df ++ (replicate_name <$> groups) ++ ["group_replicate"].
Proof.
  intros Hrep Hr Hwf Hidx Hrows Hfresh Hcols Hne Hnd Hg. eexists. split.
  { apply (returns_frame suffix_a suffix_b h r df); [done|].
    by apply default_index_frame. }
  rewrite (merge_default_index_fresh df); try done.
  2:{ by apply derived_no_overlap. }
  2:{ apply derived_columns_length. }
  unfold column_names. cbn [df_columns].
  rewrite derived_columns_distinct by done.
  rewrite !fmap_app. unfold flag_columns.
  rewrite <- list_fmap_compose. done.
Qed.

Lemma group_cell_sides_equal (suffix_a suffix_b : string) (df : DataFrame)
    (groups : list string) (i : nat) :
  well_formed df ->
  df_index df = RangeIndex (nrows df) ->
  NoDup (column_names df) ->
  fresh_names df groups ->
  columns_present suffix_a suffix_b df groups ->
  i < nrows df ->
  cell (merge_on_index df
          (mkDataFrame (RangeIndex (nrows df))
             (derived_columns suffix_a suffix_b df groups)))
    "group_replicate" i
  = Some (VBool
            (forallb (fun g => sides_equal suffix_a suffix_b df g i) groups)).
Proof.
  intros Hwf Hidx Hnd Hfresh Hcols Hi.
  rewrite (merge_default_index_fresh df); try done.
  2:{ by apply derived_no_overlap. }
  2:{ apply derived_columns_length. }
  unfold cell. cbn [df_columns].
  rewrite get_column_app, get_column_other by apply Hfresh.
  rewrite get_column_derived_group. cbn.
  rewrite list_lookup_fmap, group_flags_lookup by done. cbn.
  do 2 f_equal. apply forallb_ext_elem. intros g Hg.
  destruct (columns_present_has _ _ _ _ Hcols g Hg) as [Ha Hb].
  destruct (has_column_get _ _ Ha) as (A & HA & HAin).
  destruct (has_column_get _ _ Hb) as (B & HB & HBin).
  pose proof Hwf as Hwf'. unfold well_formed in Hwf'.
  rewrite Forall_forall in Hwf'.
  pose proof (Hwf' _ HAin) as HlenA. pose proof (Hwf' _ HBin) as HlenB.
  cbn [snd] in HlenA, HlenB.
  destruct (lookup_lt_is_Some_2 A i) as [x Hx]; [lia|].
  destruct (lookup_lt_is_Some_2 B i) as [y Hy]; [lia|].
  rewrite flags_of_default by done.
  rewrite (eq_mask_NoDup _ _ _ _ A B) by done.
  unfold series_eq. rewrite lookup_zip_with, Hx. cbn. rewrite Hy. cbn.
  unfold sides_equal, cell. rewrite HA, HB. cbn. rewrite Hx, Hy.
  by destruct (value_eqb x y).
Qed.

(** X3: for a well-formed table with at least one row on the default row
    index, with distinct column names to which the derived names are new
    and the columns of every listed field present, the call returns and
    the returned [group_replicate] is true in a row exactly when, for every
    listed field (one called group included), the two sides of the field
    are equal in that row of the input. *)
Theorem group_replicate_all_sides_equal (suffix_a suffix_b : string)
    (h : list DataFrame) (r : ref) (df : DataFrame) (groups : list string) :
  suffixes_ok suffix_a suffix_b ->
  h !! r = Some df ->
  well_formed df ->
  df_index df = RangeIndex (nrows df) ->
  nrows df <> 0 ->
  NoDup (column_names df) ->
  fresh_names df groups ->
  columns_present suffix_a suffix_b df groups ->
  groups <> [] ->
  exists out,
    returns suffix_a suffix_b h r groups out /\
    forall i, i < nrows df ->
      cell out "group_replicate" i
      = Some (VBool
                (forallb (fun g => sides_equal suffix_a suffix_b df g i)
                   groups)).
Proof.
  intros Hrep Hr Hwf Hidx Hrows Hnd Hfresh Hcols Hne. eexists. split.
  { apply (returns_frame suffix_a suffix_b h r df); [done|].
    by apply default_index_frame. }
  intros i Hi. by apply group_cell_sides_equal.
Qed.

Lemma has_column_iff_get (n : string) (df : DataFrame) :
  has_column n df = true <-> get_column n (df_columns df) <> None.
Proof.
  split.
  - intros (s & -> & _)%has_column_get. done.
  - intros H. apply has_column_select. intros E. apply H.
    unfold get_column. by rewrite E.
Qed.

Section SameSides.

Variables suffix_a suffix_b : string.

Variables df df' : DataFrame.

Variable groups : list string.

Hypothesis Hnd : NoDup (column_names df).

Hypothesis Hnd' : NoDup (column_names df').

Hypothesis Hindex : df_index df' = df_index df.

Hypothesis Hsame :
  forall g, g ∈ groups ->
    get_column (g +:+ suffix_a) (df_columns df')
    = get_column (g +:+ suffix_a) (df_columns df) /\
    get_column (g +:+ suffix_b) (df_columns df')
    = get_column (g +:+ suffix_b) (df_columns df).

Lemma same_sides_has_column (g : string) :
  g ∈ groups ->
  has_column (g +:+ suffix_a) df' = has_column (g +:+ suffix_a) df /\
  has_column (g +:+ suffix_b) df' = has_column (g +:+ suffix_b) df.
Proof.
  intros Hg. destruct (Hsame g Hg) as [Ea Eb].
  split; apply eq_true_iff_eq; rewrite !has_column_iff_get;
    by rewrite ?Ea, ?Eb.
Qed.

Lemma same_sides_flags_of (g : string) :
  g ∈ groups ->
  flags_of suffix_a suffix_b df' g = flags_of suffix_a suffix_b df g.
Proof.
  intros Hg. destruct (Hsame g Hg) as [Ea Eb].
  unfold flags_of, flag_rows. rewrite !eq_mask_by_name by done.
  by rewrite Ea, Eb, Hindex.
Qed.

Lemma same_sides_field_check (g : string) :
  g ∈ groups ->
  field_check suffix_a suffix_b df' g = field_check suffix_a suffix_b df g.
Proof.
  intros Hg. destruct (Hsame g Hg) as [Ea Eb].
  destruct (same_sides_has_column g Hg) as [Ha Hb].
  unfold field_check, flag_rows, nrows. rewrite !eq_mask_by_name by done.
  by rewrite Ha, Hb, Ea, Eb, Hindex.
Qed.

Lemma same_sides_nrows : nrows df' = nrows df.
Proof. unfold nrows. by rewrite Hindex. Qed.

Lemma same_sides_derived_columns :
  derived_columns suffix_a suffix_b df' groups
  = derived_columns suffix_a suffix_b df groups.
Proof.
  unfold derived_columns. rewrite same_sides_nrows.
  assert (flag_columns suffix_a suffix_b df' groups
          = flag_columns suffix_a suffix_b df groups) as ->.
  { unfold flag_columns. apply map_ext_in. intros g Hg%list_elem_of_In.
    by rewrite same_sides_flags_of. }
  assert (group_flags suffix_a suffix_b df' groups
          = group_flags suffix_a suffix_b df groups) as ->; [|done].
  unfold group_flags. rewrite same_sides_nrows.
  apply map_ext. intros i. apply forallb_ext_elem. intros g Hg.
  by rewrite same_sides_flags_of.
Qed.

End SameSides.

(** X4: the derived columns depend on the table only through its row index
    and the two suffixed columns of the listed fields.  For two tables with
    distinct column names that agree on these (whatever their other
    columns, the similarity values for instance), a call that returns on
    one returns on the other, with the same replicate and group columns. *)
Theorem derived_columns_depend_on_sides (suffix_a suffix_b : string)
    (h h' : list DataFrame) (r r' : ref) (df df' out : DataFrame)
    (groups : list string) :
  suffixes_ok suffix_a suffix_b ->
  NoDup (column_names df) ->
  NoDup (column_names df') ->
  df_index df' = df_index df ->
  (forall g, g ∈ groups ->
     get_column (g +:+ suffix_a) (df_columns df')
     = get_column (g +:+ suffix_a) (df_columns df) /\
     get_column (g +:+ suffix_b) (df_columns df')
     = get_column (g +:+ suffix_b) (df_columns df)) ->
  fresh_names df groups ->
  fresh_names df' groups ->
  h !! r = Some df ->
  h' !! r' = Some df' ->
  returns suffix_a suffix_b h r groups out ->
  exists out',
    returns suffix_a suffix_b h' r' groups out' /\
    forall n, n ∈ "group_replicate" :: (replicate_name <$> groups) ->
      get_column n (df_columns out') = get_column n (df_columns out) /\
      get_column n (df_columns out) <> None.
Proof.
  intros Hrep Hnd Hnd' Hindex Hsame Hfresh Hfresh' Hr Hr' Hret.
  apply (returns_frame suffix_a suffix_b h r df) in Hret; [|done].
  apply frame_ok in Hret as (Hne & [u Hu] & ->); [|done].
  set (k := mkDataFrame (RangeIndex (nrows df))
              (derived_columns suffix_a suffix_b df groups)).
  assert (assign_replicates_frame suffix_a suffix_b df' groups
          = Ok (merge_on_index df' k)) as Hfr.
  { rewrite (frame_of_checks suffix_a suffix_b Hrep df' groups
               (map (fun _ => tt) groups)); try done.
    - rewrite (same_sides_derived_columns suffix_a suffix_b df df') by done.
      by rewrite (same_sides_nrows df df').
    - apply checks_ok_of_each. intros g Hg.
      rewrite (same_sides_field_check suffix_a suffix_b df df' groups)
        by done.
      by eapply checks_ok_each_check. }
  exists (merge_on_index df' k). split.
  { by apply (returns_frame suffix_a suffix_b h' r' df'). }
  intros n Hn.
  assert ((n ∉ column_names df) /\ (n ∉ column_names df') /\
          exists s, get_column n (df_columns k) = Some s)
    as (Hn1 & Hn2 & s & Hs).
  { apply elem_of_cons in Hn as [->|(g & -> & Hg)%list_elem_of_fmap].
    - split; [apply Hfresh|]. split; [apply Hfresh'|].
      eexists. apply get_column_derived_group.
    - split; [by apply Hfresh|]. split; [by apply Hfresh'|].
      eexists. by apply get_column_derived. }
  rewrite !get_column_merge_right; try done.
  - rewrite Hindex, Hs. done.
  - by apply derived_no_overlap.
  - intros x Hx. unfold k, column_names in Hx. cbn [df_columns] in Hx.
    apply derived_columns_names in Hx as [->|(g & Hin & ->)].
    + apply Hfresh'.
    + by apply Hfresh'.
Qed.

(** X5: listing more grouping fields can only remove group replicates: for
    one table and two lists of fields of which the second contains the
    first, a row flagged in the group column for the longer list is
    flagged in the group column for the shorter one. *)
Theorem more_fields_fewer_replicates (suffix_a suffix_b : string)
    (h : list DataFrame) (r : ref) (df out out' : DataFrame)
    (groups groups' : list string) :
  suffixes_ok suffix_a suffix_b ->
  h !! r = Some df ->
  (forall g, g ∈ groups -> g ∈ groups') ->
  fresh_names df groups ->
  fresh_names df groups' ->
  returns suffix_a suffix_b h r groups out ->
  returns suffix_a suffix_b h r groups' out' ->
  forall t,
    cell out' "group_replicate" t = Some (VBool true) ->
    cell out "group_replicate" t = Some (VBool true).
Proof.
  intros Hrep Hr Hsub Hfresh Hfresh' Hret Hret' t.
  apply (returns_frame suffix_a suffix_b h r df) in Hret; [|done].
  apply frame_ok in Hret as (_ & _ & ->); [|done].
  apply (returns_frame suffix_a suffix_b h r df) in Hret'; [|done].
  apply frame_ok in Hret' as (_ & _ & ->); [|done].
  rewrite !cell_merge_right
    by (by apply derived_no_overlap || apply Hfresh || apply Hfresh').
  cbn [df_columns df_index]. rewrite !get_column_derived_group. cbn.
  destruct (_ !! t) as [j|]; [|done]. cbn.
  rewrite !list_lookup_fmap.
  destruct (group_flags suffix_a suffix_b df groups' !! j) as [b'|] eqn:E';
    [|done].
  cbn. intros [= ->].
  assert (j < nrows df) as Hj.
  { apply lookup_lt_Some in E'. by rewrite group_flags_length in E'. }
  rewrite group_flags_lookup in E' by done. injection E' as E'.
  rewrite group_flags_lookup by done. cbn. do 2 f_equal.
  rewrite forallb_forall in E'. apply forallb_forall.
  intros g Hg%list_elem_of_In. apply E', list_elem_of_In. by apply Hsub.
Qed.

(** X6: the order in which the grouping fields are listed does not matter
    for the group column: if a call returns for a list of fields, it
    returns for every permutation of the list, with the same
    [group_replicate] column. *)
Theorem group_replicate_order_irrelevant (suffix_a suffix_b : string)
    (h : list DataFrame) (r : ref) (df out : DataFrame)
    (groups groups' : list string) :
  suffixes_ok suffix_a suffix_b ->
  h !! r = Some df ->
  groups ≡ₚ groups' ->
  fresh_names df groups ->
  returns suffix_a suffix_b h r groups out ->
  exists out' col,
    returns suffix_a suffix_b h r groups' out' /\
    get_column "group_replicate" (df_columns out') = Some col /\
    get_column "group_replicate" (df_columns out) = Some col.
Proof.
  intros Hrep Hr Hperm Hfresh Hret.
  assert (forall g, g ∈ groups <-> g ∈ groups') as Hel
    by (intros g; by rewrite Hperm).
  apply (returns_frame suffix_a suffix_b h r df) in Hret; [|done].
  apply frame_ok in Hret as (Hne & [u Hu] & ->); [|done].
  assert (groups' <> []) as Hne'.
  { intros ->. by apply Permutation_nil_r in Hperm. }
  assert (fresh_names df groups') as Hfresh'.
  { split; [apply Hfresh|]. intros g Hg. by apply Hfresh, Hel. }
  assert (group_flags suffix_a suffix_b df groups'
          = group_flags suffix_a suffix_b df groups) as Hflags.
  { unfold group_flags. apply map_ext. intros i.
    apply forallb_same_elements. intros g. by rewrite Hel. }
  eexists. eexists. split; [|split].
  - apply (returns_frame suffix_a suffix_b h r df); [done|].
    apply (frame_of_checks suffix_a suffix_b Hrep df groups'
             (map (fun _ => tt) groups')); [done|].
    apply checks_ok_of_each. intros g Hg%Hel.
    by eapply checks_ok_each_check.
  - rewrite get_column_merge_right.
    + cbn [df_columns df_index]. rewrite get_column_derived_group, Hflags.
      cbn. reflexivity.
    + by apply derived_no_overlap.
    + apply Hfresh'.
  - rewrite get_column_merge_right.
    + cbn [df_columns df_index]. rewrite get_column_derived_group.
      cbn. reflexivity.
    + by apply derived_no_overlap.
    + apply Hfresh.
Qed.

(** X7: a missing value never matches.  For a table as in X3, a row in
    which one side of some listed field holds NaN (a missing value) is not
    flagged as a group replicate, whatever the other side holds, a missing
    value included. *)
Theorem missing_value_never_replicate (suffix_a suffix_b : string)
    (h : list DataFrame) (r : ref) (df : DataFrame) (groups : list string)
    (g : string) (i : nat) :
  suffixes_ok suffix_a suffix_b ->
  h !! r = Some df ->
  well_formed df ->
  df_index df = RangeIndex (nrows df) ->
  NoDup (column_names df) ->
  fresh_names df groups ->
  columns_present suffix_a suffix_b df groups ->
  g ∈ groups ->
  i < nrows df ->
  cell df (g +:+ suffix_a) i = Some VNaN \/
  cell df (g +:+ suffix_b) i = Some VNaN ->
  exists out,
    returns suffix_a suffix_b h r groups out /\
    cell out "group_replicate" i = Some (VBool false).
Proof.
  intros Hrep Hr Hwf Hidx Hnd Hfresh Hcols Hg Hi Hnan. eexists. split.
  { apply (returns_frame suffix_a suffix_b h r df); [done|].
    apply default_index_frame; try done; [lia|]. intros ->.
    by apply elem_of_nil in Hg. }
  rewrite group_cell_sides_equal by done. do 2 f_equal.
  apply not_true_is_false. rewrite forallb_forall. intros Hall.
  apply list_elem_of_In, Hall in Hg. unfold sides_equal in Hg.
  destruct Hnan as [E|E]; rewrite E in Hg.
  - destruct (cell df (g +:+ suffix_b) i); done.
  - destruct (cell df (g +:+ suffix_a) i) as [[]|]; done.
Qed.


Lemma field_check_off_index (suffix_a suffix_b : string) (df : DataFrame)
    (g : string) (p : nat) :
  NoDup (column_names df) ->
  nrows df <> 0 ->
  has_column (g +:+ suffix_a) df = true ->
  has_column (g +:+ suffix_b) df = true ->
  sides_equal suffix_a suffix_b df g p = true ->
  LInt (Z.of_nat p) ∉ df_index df ->
  field_check suffix_a suffix_b df g = Err KeyError.
Proof.
  intros Hnd Hrows Ha Hb Heq Hp. unfold field_check. rewrite Ha, Hb.
  cbn [andb]. rewrite bool_decide_eq_false_2 by done.
  destruct (forallb _ _) eqn:E; [|done]. exfalso. apply Hp.
  rewrite forallb_forall in E.
  assert (LInt (Z.of_nat p) ∈ flag_rows suffix_a suffix_b df g) as Hin.
  { unfold flag_rows. rewrite elem_of_as_labels, elem_of_np_where.
    destruct (has_column_get _ _ Ha) as (A & HA & _).
    destruct (has_column_get _ _ Hb) as (B & HB & _).
    rewrite (eq_mask_NoDup _ _ _ _ A B) by done.
    unfold sides_equal, cell in Heq. rewrite HA, HB in Heq. cbn in Heq.
    unfold series_eq. rewrite lookup_zip_with.
    destruct (A !! p) as [x|]; [|done]. cbn.
    destruct (B !! p) as [y|]; [|done]. cbn. by rewrite Heq. }
  apply list_elem_of_In, E in Hin. by apply bool_decide_eq_true in Hin.
Qed.

Lemma checks_key_error (suffix_a suffix_b : string) (df : DataFrame)
    (groups : list string) (g : string) :
  nrows df <> 0 ->
  (forall f, f ∈ groups ->
     has_column (f +:+ suffix_a) df = true /\
     has_column (f +:+ suffix_b) df = true) ->
  g ∈ groups ->
  field_check suffix_a suffix_b df g = Err KeyError ->
  rmapM (field_check suffix_a suffix_b df) groups = Err KeyError.
Proof.
  intros Hrows Hhas Hg Hkey. induction Hg as [g groups|g f groups Hg IH].
  - cbn [rmapM]. by rewrite Hkey.
  - cbn [rmapM]. rewrite IH; [|intros f' Hf'; apply Hhas; by right|done].
    destruct (field_check_cases suffix_a suffix_b df f)
      as [E|[E|[E|[_ E]]]]; [| | |done].
    + by rewrite E.
    + destruct (Hhas f) as [Ha Hb]; [left|].
      unfold field_check in E. rewrite Ha, Hb in E. cbn [andb] in E.
      destruct (bool_decide _); [done|]. by destruct (forallb _ _).
    + by rewrite E.
Qed.

(** X9: positions are used as row labels.  On a well-formed table with
    distinct column names in which every listed field has its two columns,
    if the
    two sides of some listed field are equal in a row whose position is not
    a label of the row index (as after filtering rows without resetting the
    index), the call fails with KeyError and returns no table. *)
Theorem equal_sides_off_index_raise (suffix_a suffix_b : string)
    (h : list DataFrame) (r : ref) (df : DataFrame) (groups : list string)
    (g : string) (p : nat) :
  suffixes_ok suffix_a suffix_b ->
  h !! r = Some df ->
  well_formed df ->
  NoDup (column_names df) ->
  columns_present suffix_a suffix_b df groups ->
  g ∈ groups ->
  sides_equal suffix_a suffix_b df g p = true ->
  LInt (Z.of_nat p) ∉ df_index df ->
  raises suffix_a suffix_b h r groups KeyError.
Proof.
  intros Hrep Hr Hwf Hnd Hcols Hg Heq Hp.
  destruct (columns_present_has _ _ _ _ Hcols g Hg) as [Ha Hb].
  assert (nrows df <> 0) as Hrows.
  { destruct (has_column_get _ _ Ha) as (A & HA & HAin).
    unfold well_formed in Hwf. rewrite Forall_forall in Hwf.
    pose proof (Hwf _ HAin) as HlenA. cbn [snd] in HlenA.
    unfold sides_equal, cell in Heq. rewrite HA in Heq. cbn in Heq.
    destruct (A !! p) as [x|] eqn:Ex; [|done].
    apply lookup_lt_Some in Ex. lia. }
  apply (raises_frame suffix_a suffix_b h r df groups KeyError Hr).
  unfold assign_replicates_frame. rewrite derived_frame_spec by done.
  rewrite (checks_key_error suffix_a suffix_b df groups g); try done.
  - by apply columns_present_has.
  - by apply (field_check_off_index suffix_a suffix_b df g p).
Qed.

(** X16: a table without rows is refused.  When every listed field has
    its two columns, a call on a table without rows raises ValueError, in
    the iteration of the first field when its new replicate column is set
    to a scalar (or at the concatenation when no field is listed), and
    returns no table. *)
Theorem empty_table_raises (suffix_a suffix_b : string)
    (h : list DataFrame) (r : ref) (df : DataFrame) (groups : list string) :
  suffixes_ok suffix_a suffix_b ->
  h !! r = Some df ->
  nrows df = 0 ->
  columns_present suffix_a suffix_b df groups ->
  raises suffix_a suffix_b h r groups ValueError /\
  forall out, ~ returns suffix_a suffix_b h r groups out.
Proof.
  intros Hrep Hr Hrows Hcols.
  assert (assign_replicates_frame suffix_a suffix_b df groups
          = Err ValueError) as Hfr.
  { unfold assign_replicates_frame. rewrite derived_frame_spec by done.
    destruct groups as [|g groups]; [done|]. cbn [rmapM].
    destruct (columns_present_has _ _ _ _ Hcols g) as [Ha Hb]; [left|].
    unfold field_check. rewrite Ha, Hb. cbn [andb].
    by rewrite (bool_decide_eq_true_2 _ Hrows). }
  split.
  - by apply (raises_frame suffix_a suffix_b h r df groups ValueError Hr).
  - intros out Hret.
    apply (returns_frame suffix_a suffix_b h r df) in Hret; [|done].
    by rewrite Hfr in Hret.
Qed.

(** ** compare_distributions: samples without elements *)

Section EmptySamples.

Local Open Scope R_scope.

Variables available_methods available_summary_methods : list string.

Lemma fit_transform {A : Type} (control target : list R)
    (k : list R -> result A) :
  rbind (fit control) (fun scaler =>
    rbind (transform scaler target) k)
  = if decide (control = []) then Err ValueError
    else if decide (target = []) then Err ValueError
    else k (map (standardized control) target).
Proof. by destruct control, target. Qed.

(** X15: with method zscore and both names supported, a call with an
    empty control sample or an empty target sample fails with ValueError:
    the scaler refuses an array without samples, both when it is fitted
    and when it transforms. *)
Theorem empty_sample_raises (target control : list R) (summary : string) :
  "zscore" ∈ available_methods ->
  summary ∈ available_summary_methods ->
  control = [] \/ target = [] ->
  compare_distributions available_methods available_summary_methods
    target control "zscore" summary
  = Err ValueError.
Proof.
  intros Hm Hs Hempty. unfold compare_distributions.
  unfold check_compare_distribution_method, check_replicate_summary_method.
  rewrite !bool_decide_eq_true_2 by done. cbn [rbind].
  rewrite fit_transform.
  destruct (decide (control = [])) as [_|Hc]; [done|].
  destruct Hempty as [->| ->]; [done|]. done.
Qed.

End EmptySamples.

(** ** Instances of the further properties *)

Lemma example_returns_b :
  returns "_pair_a" "_pair_b" [example_table] 0 ["b"] example_result_b.
Proof. eexists _, _. split; [vm_compute; reflexivity|reflexivity]. Qed.

Lemma example_distinct_columns : NoDup (column_names example_table).
Proof.
  apply (bool_decide_eq_true_1 (NoDup (column_names example_table))).
  vm_compute. reflexivity.
Qed.

Lemma returns_iff_columns_present_witness :
  (exists out, returns "_pair_a" "_pair_b" [example_table] 0 ["a"; "b"] out)
  <-> ["a"; "b"] <> [] /\
      columns_present "_pair_a" "_pair_b" example_table ["a"; "b"] /\
      nrows example_table <> 0.
Proof.
  apply (returns_iff_columns_present "_pair_a" "_pair_b" [example_table] 0
           example_table ["a"; "b"]).
  - exact pair_suffixes_ok.
  - reflexivity.
  - apply well_formed_by_check. vm_compute. reflexivity.
  - reflexivity.
Defined.

Lemma appended_column_names_witness :
  exists out,
    returns "_pair_a" "_pair_b" [example_table] 0 ["a"; "b"] out /\
    column_names out
    = column_names example_table
      ++ (replicate_name <$> ["a"; "b"]) ++ ["group_replicate"].
Proof.
  apply (appended_column_names "_pair_a" "_pair_b" [example_table] 0
           example_table ["a"; "b"]).
  - exact pair_suffixes_ok.
  - reflexivity.
  - apply well_formed_by_check. vm_compute. reflexivity.
  - reflexivity.
  - vm_compute. lia.
  - apply fresh_names_by_check. vm_compute. reflexivity.
  - apply columns_present_by_check. vm_compute. reflexivity.
  - discriminate.
  - apply (bool_decide_eq_true_1 (NoDup ["a"; "b"])). vm_compute.
    reflexivity.
  - apply (bool_decide_eq_false_1 ("group" ∈ ["a"; "b"])). vm_compute.
    reflexivity.
Defined.

Lemma group_replicate_all_sides_equal_witness :
  exists out,
    returns "_pair_a" "_pair_b" [group_field_table] 0 ["group"; "b"] out /\
    forall i, i < nrows group_field_table ->
      cell out "group_replicate" i
      = Some (VBool
                (forallb
                   (fun g =>
                      sides_equal "_pair_a" "_pair_b" group_field_table g i)
                   ["group"; "b"])).
Proof.
  apply (group_replicate_all_sides_equal "_pair_a" "_pair_b"
           [group_field_table] 0 group_field_table ["group"; "b"]).
  - exact pair_suffixes_ok.
  - reflexivity.
  - apply well_formed_by_check. vm_compute. reflexivity.
  - reflexivity.
  - vm_compute. lia.
  - apply (bool_decide_eq_true_1 (NoDup (column_names group_field_table))).
    vm_compute. reflexivity.
  - apply fresh_names_by_check. vm_compute. reflexivity.
  - apply columns_present_by_check. vm_compute. reflexivity.
  - discriminate.
Defined.

Lemma derived_columns_depend_on_sides_witness :
  exists out',
    returns "_pair_a" "_pair_b" [rescored_table] 0 ["a"; "b"] out' /\
    forall n, n ∈ "group_replicate" :: (replicate_name <$> ["a"; "b"]) ->
      get_column n (df_columns out')
      = get_column n (df_columns example_result) /\
      get_column n (df_columns example_result) <> None.
Proof.
  apply (derived_columns_depend_on_sides "_pair_a" "_pair_b"
           [example_table] [rescored_table] 0 0 example_table rescored_table
           example_result ["a"; "b"]).
  - exact pair_suffixes_ok.
  - exact example_distinct_columns.
  - apply (bool_decide_eq_true_1 (NoDup (column_names rescored_table))).
    vm_compute. reflexivity.
  - reflexivity.
  - intros g Hg. apply elem_of_cons in Hg as [->|Hg].
    { split; reflexivity. }
    apply elem_of_cons in Hg as [->|Hg].
    { split; reflexivity. }
    by apply elem_of_nil in Hg.
  - apply fresh_names_by_check. vm_compute. reflexivity.
  - apply fresh_names_by_check. vm_compute. reflexivity.
  - reflexivity.
  - reflexivity.
  - exact example_returns.
Defined.

Lemma more_fields_fewer_replicates_witness :
  cell example_result "group_replicate" 0 = Some (VBool true) /\
  cell example_result_b "group_replicate" 0 = Some (VBool true).
Proof.
  split; [reflexivity|].
  apply (more_fields_fewer_replicates "_pair_a" "_pair_b" [example_table] 0
           example_table example_result_b example_result ["b"] ["a"; "b"]).
  - exact pair_suffixes_ok.
  - reflexivity.
  - intros g Hg. by right.
  - apply fresh_names_by_check. vm_compute. reflexivity.
  - apply fresh_names_by_check. vm_compute. reflexivity.
  - exact example_returns_b.
  - exact example_returns.
  - reflexivity.
Defined.

Lemma group_replicate_order_irrelevant_witness :
  exists out' col,
    returns "_pair_a" "_pair_b" [example_table] 0 ["b"; "a"] out' /\
    get_column "group_replicate" (df_columns out') = Some col /\
    get_column "group_replicate" (df_columns example_result) = Some col.
Proof.
  apply (group_replicate_order_irrelevant "_pair_a" "_pair_b"
           [example_table] 0 example_table example_result
           ["a"; "b"] ["b"; "a"]).
  - exact pair_suffixes_ok.
  - reflexivity.
  - apply Permutation_swap.
  - apply fresh_names_by_check. vm_compute. reflexivity.
  - exact example_returns.
Defined.

Lemma missing_value_never_replicate_witness :
  exists out,
    returns "_pair_a" "_pair_b" [missing_value_table] 0 ["a"; "b"] out /\
    cell out "group_replicate" 0 = Some (VBool false).
Proof.
  apply (missing_value_never_replicate "_pair_a" "_pair_b"
           [missing_value_table] 0 missing_value_table ["a"; "b"] "a" 0).
  - exact pair_suffixes_ok.
  - reflexivity.
  - apply well_formed_by_check. vm_compute. reflexivity.
  - reflexivity.
  - apply (bool_decide_eq_true_1 (NoDup (column_names missing_value_table))).
    vm_compute. reflexivity.
  - apply fresh_names_by_check. vm_compute. reflexivity.
  - apply columns_present_by_check. vm_compute. reflexivity.
  - left.
  - vm_compute. lia.
  - left. reflexivity.
Defined.

Lemma equal_sides_off_index_raise_witness :
  raises "_pair_a" "_pair_b" [one_row_table] 0 ["a"] KeyError.
Proof.
  apply (equal_sides_off_index_raise "_pair_a" "_pair_b" [one_row_table] 0
           one_row_table ["a"] "a" 0).
  - exact pair_suffixes_ok.
  - reflexivity.
  - apply well_formed_by_check. vm_compute. reflexivity.
  - apply (bool_decide_eq_true_1 (NoDup (column_names one_row_table))).
    vm_compute. reflexivity.
  - apply columns_present_by_check. vm_compute. reflexivity.
  - left.
  - vm_compute. reflexivity.
  - apply (bool_decide_eq_false_1
             (LInt (Z.of_nat 0) ∈ df_index one_row_table)).
    vm_compute. reflexivity.
Defined.

Lemma empty_table_raises_witness :
  raises "_pair_a" "_pair_b" [empty_table] 0 ["a"] ValueError /\
  forall out, ~ returns "_pair_a" "_pair_b" [empty_table] 0 ["a"] out.
Proof.
  apply (empty_table_raises "_pair_a" "_pair_b" [empty_table] 0
           empty_table ["a"]).
  - exact pair_suffixes_ok.
  - reflexivity.
  - reflexivity.
  - apply columns_present_by_check. vm_compute. reflexivity.
Defined.


Lemma empty_sample_raises_witness :
  compare_distributions ["zscore"] ["mean"; "median"] []
    [1%R; 2%R] "zscore" "mean"
  = Err ValueError.
Proof.
  apply (empty_sample_raises ["zscore"] ["mean"; "median"] [] [1%R; 2%R]
           "mean").
  - left.
  - left.
  - right. reflexivity.
Defined.
